(** * The LineEditor facade of [Sources/EditLine/editline.c]

    The facade keeps three file-scope statics ([editLine],
    [historyInstance], [historyEvent]) and drives the line-editing engine
    declared in [<histedit.h>].  The engine is not part of the repository:
    it is an interface here ([Libedit]), the four facade functions are
    written once over that interface, and a reference engine ([Engine])
    supplies the behaviour the specification asks of it. *)

From Stdlib Require Import ZArith String Ascii.
From stdpp Require Import gmap strings list fin_maps pretty.

Local Open Scope string_scope.

(** ** C data *)

(** [EditLine *] and [History *]: an address, or the null pointer. *)
Abbreviation ptr := (option positive).
Abbreviation NULL := (@None positive).

(** The three standard streams handed to [el_init]. *)
Inductive Stream : Set := stdin | stdout | stderr.

(** [HistEvent]: [struct { int num; const char *str; }]. *)
Record HistEvent : Set := { num : Z; str : option string }.

(** Requests of the variadic [el_set] that the facade uses. *)
Inductive ElSet : Set :=
| EL_PROMPT (f : ptr -> string)
| EL_EDITOR (mode : string)
| EL_HIST (h : ptr).

(** Requests of the variadic [history] that the facade uses. *)
Inductive HistFun : Set :=
| H_SETSIZE (n : Z)
| H_ENTER (line : option string).

(** ** The engine interface

    One method per engine entry point the facade calls.  An engine state
    [W] stands for everything the engine owns (its objects, the terminal).
    [el_gets] receives the value of [*count] and returns the line pointer
    with the value it left there;
    [history] receives the event structure and returns its result code
    with the structure as the engine left it. *)
Class Libedit (W : Type) := {
  el_init : string -> Stream -> Stream -> Stream -> W -> ptr * W;
  el_set : ptr -> ElSet -> W -> Z * W;
  el_gets : ptr -> Z -> W -> (option string * Z) * W;
  el_reset : ptr -> W -> W;
  el_end : ptr -> W -> W;
  history_init : W -> ptr * W;
  history : ptr -> HistEvent -> HistFun -> W -> (Z * HistEvent) * W;
  history_end : ptr -> W -> W
}.

(** ** Facade state and its monad *)

(** The statics of the translation unit together with the engine state. *)
Record Facade (W : Type) : Type := {
  editLine : ptr;
  historyInstance : ptr;
  historyEvent : HistEvent;
  world : W
}.
Arguments editLine {W} _.
Arguments historyInstance {W} _.
Arguments historyEvent {W} _.
Arguments world {W} _.

(** A run either returns a value and a state, or is undefined (the facade
    dereferenced a null pointer). *)
Inductive Outcome (A S : Type) : Type :=
| Ok (a : A) (s : S)
| Fault.
Arguments Ok {A S} _ _.
Arguments Fault {A S}.

Definition value {A S} (o : Outcome A S) : option A :=
  match o with Ok a _ => Some a | Fault => None end.

Definition M (W A : Type) : Type := Facade W -> Outcome A (Facade W).

(** The monad structure is given to stdpp's classes, whose notations
    [x ← c; k] and [c ;; k] the facade functions are written with. *)
#[export] Instance M_ret {W} : MRet (M W) := fun A a s => Ok a s.

#[export] Instance M_bind {W} : MBind (M W) := fun A B k c s =>
  match c s with Ok a s' => k a s' | Fault => Fault end.

Definition fault {W A} : M W A := fun _ => Fault.

Section Statics.
Context {W : Type}.

Definition load {A} (field : Facade W -> A) : M W A :=
  fun s => Ok (field s) s.

Definition store_editLine (e : ptr) : M W unit := fun s =>
  Ok tt {| editLine := e; historyInstance := historyInstance s;
           historyEvent := historyEvent s; world := world s |}.

Definition store_historyInstance (h : ptr) : M W unit := fun s =>
  Ok tt {| editLine := editLine s; historyInstance := h;
           historyEvent := historyEvent s; world := world s |}.

Definition store_historyEvent (ev : HistEvent) : M W unit := fun s =>
  Ok tt {| editLine := editLine s; historyInstance := historyInstance s;
           historyEvent := ev; world := world s |}.

Definition set_world (w : W) (s : Facade W) : Facade W :=
  {| editLine := editLine s; historyInstance := historyInstance s;
     historyEvent := historyEvent s; world := w |}.

(** An engine call that returns a value. *)
Definition call {A} (f : W -> A * W) : M W A := fun s =>
  let (a, w) := f (world s) in Ok a (set_world w s).

(** An engine call whose result is [void]. *)
Definition call_ (f : W -> W) : M W unit := fun s =>
  Ok tt (set_world (f (world s)) s).
End Statics.

(** ** The facade, function by function *)

Definition newline : ascii := "010"%char.

(** The first byte of a C string; the empty string starts with its
    terminating zero byte. *)
Definition first_byte (l : string) : ascii :=
  match l with
  | EmptyString => zero
  | String c _ => c
  end.

(** [static char *prompt(EditLine *e)]. *)
Definition prompt (e : ptr) : string := "> ".

Section Facade.
Context {W : Type} `{Libedit W}.

(** [history(h, &historyEvent, fn, ...)]: the engine writes through the
    pointer to the static event. *)
Definition history_on (h : ptr) (fn : HistFun) : M W Z :=
  ev ← load historyEvent;
  '(rc, ev') ← call (history h ev fn);
  store_historyEvent ev';;
  mret rc.

(** [line[0]]: reading through a null pointer is undefined; on the empty
    C string it yields the terminating zero byte. *)
Definition byte0 (line : option string) : M W ascii :=
  match line with
  | None => fault
  | Some l => mret (first_byte l)
  end.

Definition lineEditorCreate : M W unit :=
  e ← call (el_init "command" stdin stdout stderr);
  store_editLine e;;
  e ← load editLine;
  call (el_set e (EL_PROMPT prompt));;
  e ← load editLine;
  call (el_set e (EL_EDITOR "emacs"));;
  h ← call history_init;
  store_historyInstance h;;
  h ← load historyInstance;
  history_on h (H_SETSIZE 800);;
  e ← load editLine;
  h ← load historyInstance;
  call (el_set e (EL_HIST h));;
  mret tt.

Definition lineEditorDestroy : M W unit :=
  h ← load historyInstance;
  match h with
  | Some _ =>
      h ← load historyInstance;
      call_ (history_end h);;
      store_historyInstance NULL
  | None => mret tt
  end;;
  e ← load editLine;
  match e with
  | Some _ =>
      e ← load editLine;
      call_ (el_reset e);;
      e ← load editLine;
      call_ (el_end e);;
      store_editLine NULL
  | None => mret tt
  end.

Definition lineEditorReadLine : M W (option string) :=
  let count := 0%Z in
  e ← load editLine;
  '(line, count) ← call (el_gets e count);
  if (count <=? 0)%Z then mret None
  else
    c ← byte0 line;
    (if negb (Ascii.eqb c newline) then
       h ← load historyInstance;
       history_on h (H_ENTER line);;
       mret tt
     else mret tt);;
    mret line.

Definition lineEditorReset : M W unit :=
  e ← load editLine;
  call_ (el_reset e).
End Facade.

(** ** A reference engine

    The engine behind [<histedit.h>] is an external library.  What the
    specification requires of it (section 4.2: a prompt hook invoked at
    the start of each line, a history with a capacity setting and FIFO
    eviction, a single-line read that returns text and byte count) is
    written out below over a store of editor and history objects.  Every
    call is also recorded, with the handle it received, in [calls]. *)

(** What the terminal delivers to one single-line read. *)
Inductive TtyEvent : Set :=
| Committed (text : string)
| EndOfInput
| Interrupted
| ReadError.

(** Modelled from the spec: the Editor entity of section 3 (program tag,
    the three streams, prompt hook, edit mode, associated History, and the
    LineBuffer it owns); the type [EditLine] itself is declared in
    [<histedit.h>]. *)
Record EditLine : Type := {
  prog : string;
  fin : Stream;
  fout : Stream;
  ferr : Stream;
  prompt_hook : option (ptr -> string);
  edit_mode : option string;
  hist_link : ptr;
  line_buffer : option string
}.

(** Modelled from the spec: the History entity of section 3, a capacity
    and the current entries in insertion order (oldest first); the type
    [History] itself is declared in [<histedit.h>]. *)
Record History : Set := {
  capacity : nat;
  entries : list string
}.

(** The calls an engine can observe. *)
Inductive Call : Type :=
| Call_el_init (tag : string) (i o e : Stream)
| Call_el_set (e : ptr) (op : ElSet)
| Call_el_gets (e : ptr)
| Call_el_reset (e : ptr)
| Call_el_end (e : ptr)
| Call_history_init
| Call_history (h : ptr) (fn : HistFun)
| Call_history_end (h : ptr).

Record Engine : Type := {
  editors : gmap positive EditLine;
  histories : gmap positive History;
  allocs : list bool;      (* outcome of the allocations to come *)
  tty : list TtyEvent;     (* what the terminal will deliver *)
  screen : list string;    (* what has been written to the output stream *)
  calls : list Call
}.

Module Eng.
Definition with_editors (m : gmap positive EditLine) (w : Engine) : Engine :=
  {| editors := m; histories := histories w; allocs := allocs w;
     tty := tty w; screen := screen w; calls := calls w |}.

Definition with_histories (m : gmap positive History) (w : Engine) : Engine :=
  {| editors := editors w; histories := m; allocs := allocs w;
     tty := tty w; screen := screen w; calls := calls w |}.

Definition with_allocs (a : list bool) (w : Engine) : Engine :=
  {| editors := editors w; histories := histories w; allocs := a;
     tty := tty w; screen := screen w; calls := calls w |}.

Definition with_tty (t : list TtyEvent) (w : Engine) : Engine :=
  {| editors := editors w; histories := histories w; allocs := allocs w;
     tty := t; screen := screen w; calls := calls w |}.

Definition with_screen (o : list string) (w : Engine) : Engine :=
  {| editors := editors w; histories := histories w; allocs := allocs w;
     tty := tty w; screen := o; calls := calls w |}.

(** Every entry point starts by leaving a record of the call. *)
Definition record (c : Call) (w : Engine) : Engine :=
  {| editors := editors w; histories := histories w; allocs := allocs w;
     tty := tty w; screen := screen w; calls := calls w ++ [c] |}.

(** The next allocation: it succeeds unless the script says otherwise. *)
Definition pop (a : list bool) : bool * list bool :=
  match a with
  | [] => (true, [])
  | ok :: rest => (ok, rest)
  end.

Definition alloc (w : Engine) : bool * Engine :=
  let (ok, rest) := pop (allocs w) in (ok, with_allocs rest w).

Definition set_prompt (f : ptr -> string) (E : EditLine) : EditLine :=
  {| prog := prog E; fin := fin E; fout := fout E; ferr := ferr E;
     prompt_hook := Some f; edit_mode := edit_mode E;
     hist_link := hist_link E; line_buffer := line_buffer E |}.

Definition set_mode (m : string) (E : EditLine) : EditLine :=
  {| prog := prog E; fin := fin E; fout := fout E; ferr := ferr E;
     prompt_hook := prompt_hook E; edit_mode := Some m;
     hist_link := hist_link E; line_buffer := line_buffer E |}.

Definition set_hist (h : ptr) (E : EditLine) : EditLine :=
  {| prog := prog E; fin := fin E; fout := fout E; ferr := ferr E;
     prompt_hook := prompt_hook E; edit_mode := edit_mode E;
     hist_link := h; line_buffer := line_buffer E |}.

Definition set_buffer (l : option string) (E : EditLine) : EditLine :=
  {| prog := prog E; fin := fin E; fout := fout E; ferr := ferr E;
     prompt_hook := prompt_hook E; edit_mode := edit_mode E;
     hist_link := hist_link E; line_buffer := l |}.

(** Modelled from the spec: the single-line read primitive of section
    4.2, "byte count <= 0 signals no-line (EOF or interrupt); > 0 signals
    a committed line of that many bytes including any trailing newline";
    transient read errors are no-line as well (section 7). *)
Definition read_result (ev : TtyEvent) : option string * Z :=
  match ev with
  | Committed text => (Some text, Z.of_nat (String.length text))
  | EndOfInput => (None, 0%Z)
  | Interrupted => (None, (-1)%Z)
  | ReadError => (None, (-1)%Z)
  end.

(** The terminal's next event; a drained input is at end-of-input. *)
Definition next_event (w : Engine) : TtyEvent * Engine :=
  match tty w with
  | [] => (EndOfInput, with_tty [] w)
  | ev :: rest => (ev, with_tty rest w)
  end.

(** Modelled from the spec: "History capacity is a hard upper bound:
    when full, the oldest entry is evicted before the newest is appended
    (FIFO eviction)" (section 3).  Keeping the last [n] entries of the
    extended sequence is that eviction. *)
Definition keep_last (n : nat) (l : list string) : list string :=
  drop (length l - n) l.

Definition enter (line : string) (H : History) : History :=
  {| capacity := capacity H;
     entries := keep_last (capacity H) (entries H ++ [line]) |}.

Definition resize (n : nat) (H : History) : History :=
  {| capacity := n; entries := keep_last n (entries H) |}.

(** Modelled from the spec: "allocates and initializes the Editor bound
    to standard input/output/error with program tag" (section 4.1); the
    allocation may fail, and the result is then the null pointer. *)
Definition el_init (tag : string) (i o e : Stream) (w : Engine)
  : ptr * Engine :=
  let w := record (Call_el_init tag i o e) w in
  let (ok, w) := alloc w in
  if ok then
    let p := fresh (dom (editors w)) in
    (Some p,
     with_editors
       (<[p := {| prog := tag; fin := i; fout := o; ferr := e;
                  prompt_hook := None; edit_mode := None;
                  hist_link := NULL; line_buffer := None |}]> (editors w))
       w)
  else (NULL, w).

(** Modelled from the spec: installing the prompt hook, the edit mode
    and the History association on a live Editor (section 4.1).  On a
    handle that is not live the call has no effect and reports -1. *)
Definition el_set (e : ptr) (op : ElSet) (w : Engine) : Z * Engine :=
  let w := record (Call_el_set e op) w in
  match e with
  | Some p =>
      match editors w !! p with
      | Some E =>
          let E' := match op with
                    | EL_PROMPT f => set_prompt f E
                    | EL_EDITOR m => set_mode m E
                    | EL_HIST h => set_hist h E
                    end in
          (0%Z, with_editors (<[p := E']> (editors w)) w)
      | None => ((-1)%Z, w)
      end
  | None => ((-1)%Z, w)
  end.

(** Modelled from the spec: the prompt hook is "invoked by the engine at
    the start of each line" and its string displayed; the read then
    yields the terminal's next event, and the committed text is kept in
    the Editor's LineBuffer (sections 3 and 4.2).  On a handle that is
    not live nothing is read and the count is -1. *)
Definition el_gets (e : ptr) (count : Z) (w : Engine)
  : (option string * Z) * Engine :=
  let w := record (Call_el_gets e) w in
  match e with
  | Some p =>
      match editors w !! p with
      | Some E =>
          let w := match prompt_hook E with
                   | Some f => with_screen (screen w ++ [f e]) w
                   | None => w
                   end in
          let (ev, w) := next_event w in
          let r := read_result ev in
          (r, with_editors (<[p := set_buffer (fst r) E]> (editors w)) w)
      | None => ((None, (-1)%Z), w)
      end
  | None => ((None, (-1)%Z), w)
  end.

(** Modelled from the spec: reset reinitializes the Editor's terminal
    state and clears "any partially edited buffer"; it "does not clear
    History" (section 4.1).  The terminal script holds the events of the
    reads to come and does not tell input typed ahead from later input, so
    the "pending input" a reset drops is not represented, and nothing
    below says what a read returns after a reset. *)
Definition el_reset (e : ptr) (w : Engine) : Engine :=
  let w := record (Call_el_reset e) w in
  match e with
  | Some p =>
      match editors w !! p with
      | Some E => with_editors (<[p := set_buffer None E]> (editors w)) w
      | None => w
      end
  | None => w
  end.

(** Modelled from the spec: releasing the Editor (section 4.1,
    destroy). *)
Definition el_end (e : ptr) (w : Engine) : Engine :=
  let w := record (Call_el_end e) w in
  match e with
  | Some p => with_editors (delete p (editors w)) w
  | None => w
  end.

(** Modelled from the spec: allocating a History (section 4.1); it is
    empty, and holds nothing until a capacity is set.  The allocation may
    fail, and the result is then the null pointer. *)
Definition history_init (w : Engine) : ptr * Engine :=
  let w := record Call_history_init w in
  let (ok, w) := alloc w in
  if ok then
    let p := fresh (dom (histories w)) in
    (Some p,
     with_histories (<[p := {| capacity := 0; entries := [] |}]> (histories w)) w)
  else (NULL, w).

(** Modelled from the spec: "a history interface that accepts 'append
    this entry' commands and a capacity setting" (section 4.2), on an
    allocated History: the result code is 0 and an append leaves the
    entered line in the event structure.  The specification does not say
    what a request on a null or released handle does; the reference
    engine records it, stores nothing and answers -1, which is a
    convention of this model and not a statement about the engine. *)
Definition history (h : ptr) (ev : HistEvent) (fn : HistFun) (w : Engine)
  : (Z * HistEvent) * Engine :=
  let w := record (Call_history h fn) w in
  match h with
  | Some p =>
      match histories w !! p with
      | Some H =>
          match fn with
          | H_SETSIZE n =>
              if (n <? 0)%Z then (((-1)%Z, ev), w)
              else ((0%Z, ev),
                    with_histories
                      (<[p := resize (Z.to_nat n) H]> (histories w)) w)
          | H_ENTER (Some line) =>
              let H' := enter line H in
              ((0%Z, {| num := Z.of_nat (length (entries H'));
                        str := Some line |}),
               with_histories (<[p := H']> (histories w)) w)
          | H_ENTER None => (((-1)%Z, ev), w)
          end
      | None => (((-1)%Z, ev), w)
      end
  | None => (((-1)%Z, ev), w)
  end.

(** Modelled from the spec: ending and releasing the History (section
    4.1, destroy). *)
Definition history_end (h : ptr) (w : Engine) : Engine :=
  let w := record (Call_history_end h) w in
  match h with
  | Some p => with_histories (delete p (histories w)) w
  | None => w
  end.
End Eng.

#[export] Instance Engine_libedit : Libedit Engine := {
  el_init := Eng.el_init;
  el_set := Eng.el_set;
  el_gets := Eng.el_gets;
  el_reset := Eng.el_reset;
  el_end := Eng.el_end;
  history_init := Eng.history_init;
  history := Eng.history;
  history_end := Eng.history_end
}.

(** ** Sessions *)

(** The statics of a C program start zeroed; no engine object exists yet.
    [a] and [t] script the allocations and the terminal. *)
Definition boot (a : list bool) (t : list TtyEvent) : Facade Engine :=
  {| editLine := NULL; historyInstance := NULL;
     historyEvent := {| num := 0; str := None |};
     world := {| editors := ∅; histories := ∅; allocs := a; tty := t;
                 screen := []; calls := [] |} |}.

Inductive Op : Set := Create | ReadLine | Reset | Destroy.

Definition exec (o : Op) : M Engine unit :=
  match o with
  | Create => lineEditorCreate
  | ReadLine => lineEditorReadLine ;; mret tt
  | Reset => lineEditorReset
  | Destroy => lineEditorDestroy
  end.

(** The states a caller can bring the facade to, by any sequence of the
    four operations. *)
Inductive reachable : Facade Engine -> Prop :=
| reach_boot a t : reachable (boot a t)
| reach_step o s s' : reachable s -> exec o s = Ok tt s' -> reachable s'.

Fixpoint run (ops : list Op) (s : Facade Engine) : Facade Engine :=
  match ops with
  | [] => s
  | o :: ops' =>
      match exec o s with
      | Ok _ s' => run ops' s'
      | Fault => s
      end
  end.

(** No live instance: both holders are null. *)
Definition Absent {W} (s : Facade W) : Prop :=
  editLine s = NULL /\ historyInstance s = NULL.


(** The History the facade currently holds, with its contents. *)
Definition held_history (s : Facade Engine) : option History :=
  h ← historyInstance s; histories (world s) !! h.

(** What holds of every state a caller can reach: a held History has the
    capacity [lineEditorCreate] gave it and respects it, and a held Editor
    carries the facade's prompt hook. *)
Definition wf (s : Facade Engine) : Prop :=
  (forall h, historyInstance s = Some h ->
     exists H, histories (world s) !! h = Some H /\
               capacity H = 800 /\ length (entries H) <= 800) /\
  (forall e, editLine s = Some e ->
     exists E, editors (world s) !! e = Some E /\
               prompt_hook E = Some prompt).

(** The state [lineEditorCreate] leaves behind on the reference engine,
    in closed form ([create_eq] below proves it is that state). *)
Definition created (s : Facade Engine) : Facade Engine :=
  let w := world s in
  let (ea, a1) := Eng.pop (allocs w) in
  let (ha, a2) := Eng.pop a1 in
  let pe := fresh (dom (editors w)) in
  let ph := fresh (dom (histories w)) in
  let e' := if ea then Some pe else NULL in
  let h' := if ha then Some ph else NULL in
  {| editLine := e'; historyInstance := h'; historyEvent := historyEvent s;
     world :=
       {| editors :=
            if ea then
              <[pe := {| prog := "command"; fin := stdin; fout := stdout;
                         ferr := stderr; prompt_hook := Some prompt;
                         edit_mode := Some "emacs"; hist_link := h';
                         line_buffer := None |}]> (editors w)
            else editors w;
          histories :=
            if ha then
              <[ph := {| capacity := 800; entries := [] |}]> (histories w)
            else histories w;
          allocs := a2; tty := tty w; screen := screen w;
          calls := calls w ++
            [Call_el_init "command" stdin stdout stderr;
             Call_el_set e' (EL_PROMPT prompt);
             Call_el_set e' (EL_EDITOR "emacs");
             Call_history_init;
             Call_history h' (H_SETSIZE 800);
             Call_el_set e' (EL_HIST h')] |} |}.

(** The calls the engine received between two states. *)
Definition calls_since (s s' : Facade Engine) : list Call :=
  drop (length (calls (world s))) (calls (world s')).

(** The history requests among some calls. *)
Definition history_requests (cs : list Call) : list (ptr * HistFun) :=
  omap (fun c => match c with
                 | Call_history h fn => Some (h, fn)
                 | _ => None
                 end) cs.

(** Between [s] and [s'] the line was appended to the History [h] as a
    single entry: one append request went to the engine, for that line on
    that History, and the store differs by exactly that append. *)
Definition appended_once (s s' : Facade Engine) (h : positive)
    (line : string) : Prop :=
  history_requests (calls_since s s') = [(Some h, H_ENTER (Some line))] /\
  exists H, histories (world s) !! h = Some H /\
            histories (world s') = <[h := Eng.enter line H]> (histories (world s)).

(** An engine that differs from [E] in its [history] entry point only. *)
Definition with_history {W} (E : Libedit W)
    (f : ptr -> HistEvent -> HistFun -> W -> (Z * HistEvent) * W)
  : Libedit W :=
  {| el_init := @el_init W E; el_set := @el_set W E;
     el_gets := @el_gets W E; el_reset := @el_reset W E;
     el_end := @el_end W E; history_init := @history_init W E;
     history := f; history_end := @history_end W E |}.

(** A [history] whose every request fails: result code -1, nothing
    stored. *)
Definition failing_history {W} (h : ptr) (ev : HistEvent) (fn : HistFun)
    (w : W) : (Z * HistEvent) * W :=
  (((-1)%Z, ev), w).

(** The reading of section 4.1 under which a failed allocation in create
    leaves no partial state: whenever the script denies the Editor or the
    History, create ends with both holders null and the object store as it
    found it. *)
Definition create_failure_leaves_absent (s : Facade Engine) : Prop :=
  forall ea ha rest s',
    allocs (world s) = ea :: ha :: rest ->
    ea = false \/ ha = false ->
    lineEditorCreate s = Ok tt s' ->
    Absent s' /\
    editors (world s') = editors (world s) /\
    histories (world s') = histories (world s).


(** Sample lines and sessions. *)
Definition bare_enter : string := String newline EmptyString.

Definition ls_line : string := String "l" (String "s" bare_enter).

(** The line [L<n>] followed by a newline. *)
Definition numbered (n : nat) : string := String "L" (pretty n ++ bare_enter).

Definition session_created : Facade Engine :=
  run [Create] (boot [] [Committed ls_line]).

Definition session_read : Facade Engine :=
  run [Create; ReadLine] (boot [] [Committed ls_line]).

(** Two Editor objects that differ at most in their line buffer. *)
Definition same_config (E E' : EditLine) : Prop :=
  prog E' = prog E /\ fin E' = fin E /\ fout E' = fout E /\
  ferr E' = ferr E /\ prompt_hook E' = prompt_hook E /\
  edit_mode E' = edit_mode E /\ hist_link E' = hist_link E.

(** The holders do not dangle, and the held Editor is set up as
    [lineEditorCreate] sets it up: tag, streams, edit mode, and a link to
    the very History the facade holds. *)
Definition configured (s : Facade Engine) : Prop :=
  (forall e, editLine s = Some e ->
     exists E, editors (world s) !! e = Some E /\
               prog E = "command" /\ fin E = stdin /\ fout E = stdout /\
               ferr E = stderr /\ edit_mode E = Some "emacs" /\
               hist_link E = historyInstance s) /\
  (forall h, historyInstance s = Some h ->
     is_Some (histories (world s) !! h)).

(** A line the read's filter lets into the History: its first byte is not
    a newline. *)
Definition storable (l : string) : Prop := first_byte l <> newline.

(** Every entry of the held History passed the filter. *)
Definition entries_storable (s : Facade Engine) : Prop :=
  forall h H, historyInstance s = Some h ->
              histories (world s) !! h = Some H ->
              Forall storable (entries H).

(** No allocation to come is denied, and the holders are null together. *)
Definition paired (s : Facade Engine) : Prop :=
  Forall (fun ok => ok = true) (allocs (world s)) /\
  (editLine s = NULL <-> historyInstance s = NULL).

(** The calls destroy owes the engine for the holders it finds. *)
Definition teardown_calls (e h : ptr) : list Call :=
  match h with
  | Some _ => [Call_history_end h]
  | None => []
  end ++
  match e with
  | Some _ => [Call_el_reset e; Call_el_end e]
  | None => []
  end.

(** After [n] creates in a row with every allocation granted: [n] Editors
    and [n] Histories are allocated, and the last of each is held. *)
Definition piled (n : nat) (s : Facade Engine) : Prop :=
  allocs (world s) = [] /\
  size (editors (world s)) = n /\
  size (histories (world s)) = n /\
  (0 < n ->
   exists e h, editLine s = Some e /\ historyInstance s = Some h /\
               is_Some (editors (world s) !! e) /\
               is_Some (histories (world s) !! h)).

(** The script grants the allocation of the Editor, the first one create
    asks for. *)
Definition editor_granted (s : Facade Engine) : Prop :=
  (Eng.pop (allocs (world s))).1 = true.

(** The script grants the allocation of the History, the second one
    create asks for. *)
Definition history_granted (s : Facade Engine) : Prop :=
  (Eng.pop (Eng.pop (allocs (world s))).2).1 = true.

(** * Properties *)

Ltac monad_unfold :=
  unfold mbind, M_bind, mret, M_ret, load, call, call_, store_editLine,
    store_historyInstance, store_historyEvent, fault.

(** ** The facade over any engine *)

Section Generic.
Context {W : Type} `{Libedit W}.

(** What one read does, call by call. *)
Lemma readLine_eq (s : Facade W) :
  lineEditorReadLine s =
  let '((line, count), w1) := el_gets (editLine s) 0%Z (world s) in
  if (count <=? 0)%Z then Ok None (set_world w1 s)
  else match line with
       | None => Fault
       | Some l =>
           if Ascii.eqb (first_byte l) newline
           then Ok (Some l) (set_world w1 s)
           else
             let '((_, ev), w2) :=
               history (historyInstance s) (historyEvent s)
                       (H_ENTER (Some l)) w1 in
             Ok (Some l)
                {| editLine := editLine s;
                   historyInstance := historyInstance s;
                   historyEvent := ev; world := w2 |}
       end.
Proof.
  unfold lineEditorReadLine, history_on, byte0; monad_unfold.
  destruct (el_gets (editLine s) 0%Z (world s)) as [[line count] w1].
  destruct (count <=? 0)%Z; [reflexivity|].
  destruct line as [l|]; [|reflexivity].
  destruct (Ascii.eqb (first_byte l) newline); simpl; [reflexivity|].
  destruct (history _ _ _ _) as [[rc ev] w2]. reflexivity.
Qed.

Lemma reset_eq (s : Facade W) :
  lineEditorReset s = Ok tt (set_world (el_reset (editLine s) (world s)) s).
Proof. reflexivity. Qed.

(** What destroy does, call by call. *)
Lemma destroy_eq (s : Facade W) :
  lineEditorDestroy s =
  let w1 := match historyInstance s with
            | Some _ => history_end (historyInstance s) (world s)
            | None => world s
            end in
  let w2 := match editLine s with
            | Some _ => el_end (editLine s) (el_reset (editLine s) w1)
            | None => w1
            end in
  Ok tt {| editLine := NULL; historyInstance := NULL;
           historyEvent := historyEvent s; world := w2 |}.
Proof.
  destruct s as [[e|] [h|] ev w]; reflexivity.
Qed.

Lemma destroy_absent (s : Facade W) :
  Absent s -> lineEditorDestroy s = Ok tt s.
Proof.
  destruct s as [e h ev w]. intros [He Hh]. simpl in He, Hh. subst.
  reflexivity.
Qed.
End Generic.

(** ** Facts about the reference engine, entry point by entry point *)

Lemma keep_last_length n l : length (Eng.keep_last n l) = Nat.min n (length l).
Proof. unfold Eng.keep_last. rewrite length_drop. lia. Qed.

Lemma keep_last_fits n l : length l <= n -> Eng.keep_last n l = l.
Proof.
  intros Hl. unfold Eng.keep_last.
  replace (length l - n) with 0 by lia. reflexivity.
Qed.

Lemma keep_last_full n l x :
  0 < n -> length l = n -> Eng.keep_last n (l ++ [x]) = (drop 1 l ++ [x])%list.
Proof.
  intros Hn Hl. unfold Eng.keep_last. rewrite length_app. simpl.
  replace (length l + 1 - n) with 1 by lia.
  destruct l as [|y l]; [simpl in Hl; lia|]. reflexivity.
Qed.

Lemma eng_gets_histories e c w : histories (Eng.el_gets e c w).2 = histories w.
Proof.
  unfold Eng.el_gets, Eng.next_event.
  destruct e as [p|]; [|reflexivity]. simpl.
  destruct (editors w !! p) as [E|]; [|reflexivity].
  destruct (prompt_hook E); simpl; destruct (tty w); reflexivity.
Qed.

Lemma eng_gets_calls e c w :
  calls (Eng.el_gets e c w).2 = (calls w ++ [Call_el_gets e])%list.
Proof.
  unfold Eng.el_gets, Eng.next_event.
  destruct e as [p|]; [|reflexivity]. simpl.
  destruct (editors w !! p) as [E|]; [|reflexivity].
  destruct (prompt_hook E); simpl; destruct (tty w); reflexivity.
Qed.

(** A positive count comes with the committed text, of that many bytes. *)
Lemma eng_gets_line e c w line n :
  (Eng.el_gets e c w).1 = (line, n) -> (0 < n)%Z ->
  exists text, line = Some text /\ n = Z.of_nat (String.length text).
Proof.
  unfold Eng.el_gets, Eng.next_event.
  destruct e as [p|]; simpl; [|intros [= <- <-]; lia].
  destruct (editors w !! p) as [E|]; simpl; [|intros [= <- <-]; lia].
  destruct (prompt_hook E); simpl;
    destruct (tty w) as [|[text| | |] rest]; simpl;
    intros [= <- <-] Hn; try lia; eauto.
Qed.

(** A read keeps every Editor allocated, with the hook it had. *)
Lemma eng_gets_hook e c w q E :
  editors w !! q = Some E ->
  exists E', editors (Eng.el_gets e c w).2 !! q = Some E' /\
             prompt_hook E' = prompt_hook E.
Proof.
  intros Hq. unfold Eng.el_gets, Eng.next_event.
  destruct e as [p|]; simpl; [|eauto].
  destruct (editors w !! p) as [E0|] eqn:Hp; simpl; [|eauto].
  assert (Hins : forall m (l : option string),
             m = editors w ->
             exists E', <[p := Eng.set_buffer l E0]> m !! q = Some E' /\
                        prompt_hook E' = prompt_hook E).
  { intros m l ->. destruct (decide (p = q)) as [->|Hne].
    - rewrite lookup_insert_eq. rewrite Hp in Hq. injection Hq as ->. eauto.
    - rewrite lookup_insert_ne by done. eauto. }
  destruct (prompt_hook E0); simpl; destruct (tty w); simpl;
    apply Hins; reflexivity.
Qed.

(** On a live Editor with a hook, a read displays the hook's string. *)
Lemma eng_gets_screen p E f c w :
  editors w !! p = Some E -> prompt_hook E = Some f ->
  screen (Eng.el_gets (Some p) c w).2 = (screen w ++ [f (Some p)])%list.
Proof.
  intros Hp Hf. unfold Eng.el_gets, Eng.next_event. simpl.
  rewrite Hp, Hf. simpl. destruct (tty w); reflexivity.
Qed.

Lemma eng_history_calls h ev fn w :
  calls (Eng.history h ev fn w).2 = (calls w ++ [Call_history h fn])%list.
Proof.
  unfold Eng.history. destruct h as [p|]; [|reflexivity]. simpl.
  destruct (histories w !! p); [|reflexivity].
  destruct fn as [n|[l|]]; [destruct (n <? 0)%Z|..]; reflexivity.
Qed.

Lemma eng_history_editors h ev fn w :
  editors (Eng.history h ev fn w).2 = editors w /\
  screen (Eng.history h ev fn w).2 = screen w.
Proof.
  unfold Eng.history. destruct h as [p|]; [|done]. simpl.
  destruct (histories w !! p); [|done].
  destruct fn as [n|[l|]]; [destruct (n <? 0)%Z|..]; done.
Qed.

(** An append on a live History stores the line by [Eng.enter]. *)
Lemma eng_history_enter p H line ev w :
  histories w !! p = Some H ->
  histories (Eng.history (Some p) ev (H_ENTER (Some line)) w).2 =
  <[p := Eng.enter line H]> (histories w).
Proof. intros Hp. unfold Eng.history. simpl. rewrite Hp. reflexivity. Qed.

Lemma eng_reset_histories e w : histories (Eng.el_reset e w) = histories w.
Proof.
  unfold Eng.el_reset. destruct e as [p|]; [|reflexivity]. simpl.
  destruct (editors w !! p); reflexivity.
Qed.

Lemma eng_reset_calls e w :
  calls (Eng.el_reset e w) = (calls w ++ [Call_el_reset e])%list.
Proof.
  unfold Eng.el_reset. destruct e as [p|]; [|reflexivity]. simpl.
  destruct (editors w !! p); reflexivity.
Qed.

(** A reset touches no Editor but the one it is given. *)
Lemma eng_reset_others e w q :
  e <> Some q -> editors (Eng.el_reset e w) !! q = editors w !! q.
Proof.
  intros Hne. unfold Eng.el_reset. destruct e as [p|]; [|reflexivity].
  simpl. destruct (editors w !! p); [|reflexivity]. simpl.
  apply lookup_insert_ne. congruence.
Qed.

Lemma eng_reset_hook e w q E :
  editors w !! q = Some E ->
  exists E', editors (Eng.el_reset e w) !! q = Some E' /\
             prompt_hook E' = prompt_hook E.
Proof.
  intros Hq. unfold Eng.el_reset. destruct e as [p|]; [|eauto]. simpl.
  destruct (editors w !! p) as [E0|] eqn:Hp; [|eauto]. simpl.
  destruct (decide (p = q)) as [->|Hne].
  - rewrite lookup_insert_eq. rewrite Hp in Hq. injection Hq as ->. eauto.
  - rewrite lookup_insert_ne by done. eauto.
Qed.

(** ** The facade on the reference engine *)

(** Unfolds the record projections and the small updates of the engine,
    and nothing of the maps. *)
Ltac crunch :=
  cbv beta iota zeta delta
    [set_world editLine historyInstance historyEvent world editors histories
     allocs tty screen calls Eng.pop Eng.set_prompt Eng.set_mode Eng.set_hist
     Eng.resize Z.ltb Z.compare
     prog fin fout ferr prompt_hook edit_mode hist_link line_buffer
     capacity entries].

Lemma create_eq (s : Facade Engine) : lineEditorCreate s = Ok tt (created s).
Proof.
  destruct s as [e0 h0 ev0 [eds hs al t scr cs]].
  unfold lineEditorCreate, history_on, created; monad_unfold.
  unfold el_init, el_set, history_init, history, Engine_libedit.
  unfold Eng.el_init, Eng.history_init, Eng.el_set, Eng.history, Eng.alloc,
    Eng.record, Eng.with_editors, Eng.with_histories, Eng.with_allocs.
  destruct al as [|[] [|[] a2]];
    repeat (progress (crunch;
                      rewrite ?lookup_insert_eq, ?insert_insert_eq,
                        <- ?app_assoc));
    reflexivity.
Qed.

(** One read on the reference engine: no line, a line that starts with a
    newline, or a line that goes to the History. *)
Lemma readLine_cases (s : Facade Engine) :
  let g := Eng.el_gets (editLine s) 0%Z (world s) in
  ((g.1.2 <= 0)%Z /\ lineEditorReadLine s = Ok None (set_world g.2 s)) \/
  (exists text,
      g.1 = (Some text, Z.of_nat (String.length text)) /\ (0 < g.1.2)%Z /\
      first_byte text = newline /\
      lineEditorReadLine s = Ok (Some text) (set_world g.2 s)) \/
  (exists text,
      g.1 = (Some text, Z.of_nat (String.length text)) /\ (0 < g.1.2)%Z /\
      first_byte text <> newline /\
      let r := Eng.history (historyInstance s) (historyEvent s)
                           (H_ENTER (Some text)) g.2 in
      lineEditorReadLine s =
      Ok (Some text)
         {| editLine := editLine s; historyInstance := historyInstance s;
            historyEvent := r.1.2; world := r.2 |}).
Proof.
  intros g. rewrite readLine_eq.
  change (@el_gets Engine Engine_libedit) with Eng.el_gets.
  change (@history Engine Engine_libedit) with Eng.history.
  fold g. destruct g as [[line count] w1] eqn:Hg. simpl.
  destruct (Z.leb_spec count 0) as [Hle|Hgt]; [left; done|right].
  destruct (eng_gets_line (editLine s) 0%Z (world s) line count) as (text & -> & ->);
    [fold g; rewrite Hg; reflexivity | lia |].
  destruct (Ascii.eqb_spec (first_byte text) newline) as [Hnl|Hnl].
  - left. exists text. done.
  - right. exists text. repeat split; try done.
    destruct (Eng.history _ _ _ _) as [[rc ev] w2]. reflexivity.
Qed.

Lemma readLine_total (s : Facade Engine) :
  exists r s', lineEditorReadLine s = Ok r s'.
Proof.
  destruct (readLine_cases s) as [[_ ->]|[(text & _ & _ & _ & ->)|(text & _ & _ & _ & ->)]];
    eauto.
Qed.

(** ** The invariant of reachable states *)

Lemma created_wf s : wf (created s).
Proof.
  unfold wf, created.
  destruct (Eng.pop (allocs (world s))) as [ea a1].
  destruct (Eng.pop a1) as [ha a2]. simpl. split.
  - intros h Hh. destruct ha; [|discriminate]. injection Hh as <-.
    rewrite lookup_insert_eq. eexists; split; [reflexivity|]. simpl. lia.
  - intros e He. destruct ea; [|discriminate]. injection He as <-.
    rewrite lookup_insert_eq. eexists; split; reflexivity.
Qed.

Lemma entered_wf line H :
  capacity H = 800 ->
  capacity (Eng.enter line H) = 800 /\ length (entries (Eng.enter line H)) <= 800.
Proof.
  intros Hc. unfold Eng.enter. simpl. rewrite keep_last_length, Hc. lia.
Qed.

Lemma readLine_wf s r s' : wf s -> lineEditorReadLine s = Ok r s' -> wf s'.
Proof.
  intros [Hh He] Hr.
  pose proof (eng_gets_histories (editLine s) 0%Z (world s)) as Hgh.
  assert (Hge : forall e, editLine s = Some e ->
            exists E, editors (Eng.el_gets (editLine s) 0%Z (world s)).2 !! e = Some E /\
                      prompt_hook E = Some prompt).
  { intros e Hes. destruct (He e Hes) as (E & HE & Hp).
    destruct (eng_gets_hook (editLine s) 0%Z (world s) e E HE) as (E' & HE' & Hp').
    exists E'. split; [done | congruence]. }
  destruct (readLine_cases s) as [[_ Heq]|[(text & _ & _ & _ & Heq)|(text & _ & _ & _ & Heq)]];
    rewrite Heq in Hr; injection Hr as <- <-.
  - split; simpl; [rewrite Hgh; exact Hh | exact Hge].
  - split; simpl; [rewrite Hgh; exact Hh | exact Hge].
  - split; simpl.
    + intros h Hhs. destruct (Hh h Hhs) as (H & HH & Hc & Hl).
      rewrite Hhs, (eng_history_enter h H) by (rewrite Hgh; exact HH).
      destruct (decide (h = h)); [|done].
      rewrite lookup_insert_eq. eexists; split; [reflexivity|].
      by apply entered_wf.
    + intros e Hes. rewrite (proj1 (eng_history_editors _ _ _ _)). by apply Hge.
Qed.

Lemma reset_wf s s' : wf s -> lineEditorReset s = Ok tt s' -> wf s'.
Proof.
  intros [Hh He]. rewrite reset_eq. intros [= <-]. split; simpl.
  - change (@el_reset Engine Engine_libedit) with Eng.el_reset.
    rewrite eng_reset_histories. exact Hh.
  - intros e Hes. destruct (He e Hes) as (E & HE & Hp).
    destruct (eng_reset_hook (editLine s) (world s) e E HE) as (E' & HE' & Hp').
    exists E'. split; [exact HE' | congruence].
Qed.

Lemma destroy_wf (s s' : Facade Engine) : lineEditorDestroy s = Ok tt s' -> wf s'.
Proof. rewrite destroy_eq. intros [= <-]. split; simpl; discriminate. Qed.

Lemma boot_wf a t : wf (boot a t).
Proof. split; simpl; discriminate. Qed.

Lemma reachable_wf s : reachable s -> wf s.
Proof.
  induction 1 as [a t|o s s' _ IH Hstep]; [apply boot_wf|].
  destruct o; simpl in Hstep.
  - rewrite create_eq in Hstep. injection Hstep as <-. apply created_wf.
  - unfold mbind, M_bind, mret, M_ret in Hstep.
    destruct (lineEditorReadLine s) as [r s1|] eqn:Hr; [|discriminate].
    injection Hstep as <-. eapply readLine_wf; eassumption.
  - eapply reset_wf; eassumption.
  - eapply destroy_wf; eassumption.
Qed.

Lemma run_reachable ops s : reachable s -> reachable (run ops s).
Proof.
  revert s. induction ops as [|o ops IH]; intros s Hs; simpl; [exact Hs|].
  destruct (exec o s) as [[] s'|] eqn:Ho; [|exact Hs].
  apply IH. eapply reach_step; eassumption.
Qed.

(** ** Reads and the History *)

Lemma calls_since_app (s s' : Facade Engine) cs :
  calls (world s') = (calls (world s) ++ cs)%list -> calls_since s s' = cs.
Proof. intros Hc. unfold calls_since. rewrite Hc. apply drop_app_length. Qed.

(** A read that returns a line not starting with a newline stores it in
    the held History by [Eng.enter]. *)
Lemma readLine_enters
    (s s' : Facade Engine) (line : string) (h : positive) (H : History) :
  lineEditorReadLine s = Ok (Some line) s' ->
  historyInstance s = Some h ->
  histories (world s) !! h = Some H ->
  first_byte line <> newline ->
  exists H', histories (world s') !! h = Some H' /\
             entries H' = Eng.keep_last (capacity H) (entries H ++ [line]).
Proof.
  intros Hr Hh HH Hnl.
  pose proof (eng_gets_histories (editLine s) 0%Z (world s)) as Hgh.
  destruct (readLine_cases s)
    as [[_ Heq]|[(text & _ & _ & Hnl' & Heq)|(text & _ & _ & _ & Heq)]];
    rewrite Heq in Hr; [discriminate|..]; injection Hr as -> <-; [done|].
  cbn [world]. rewrite Hh.
  rewrite (eng_history_enter h H) by (rewrite Hgh; exact HH).
  rewrite lookup_insert_eq. eexists. split; reflexivity.
Qed.

(** C1: a read that returns a line appends it to the held History as a
    single entry exactly when the line's first byte is not a newline; a
    line that starts with a newline leaves the History store as it was. *)
Theorem readLine_history_iff_not_newline
    (s s' : Facade Engine) (line : string) (h : positive) (H : History) :
  lineEditorReadLine s = Ok (Some line) s' ->
  historyInstance s = Some h ->
  histories (world s) !! h = Some H ->
  (appended_once s s' h line <-> first_byte line <> newline) /\
  (first_byte line <> newline ->
     histories (world s') !! h =
     Some {| capacity := capacity H;
             entries := Eng.keep_last (capacity H) (entries H ++ [line]) |}) /\
  (first_byte line = newline ->
     histories (world s') = histories (world s) /\
     held_history s' = Some H /\
     history_requests (calls_since s s') = []).
Proof.
  intros Hr Hh HH.
  pose proof (eng_gets_histories (editLine s) 0%Z (world s)) as Hgh.
  pose proof (eng_gets_calls (editLine s) 0%Z (world s)) as Hgc.
  destruct (readLine_cases s)
    as [[_ Heq]|[(text & _ & _ & Hnl & Heq)|(text & _ & _ & Hnl & Heq)]];
    rewrite Heq in Hr; [discriminate|..]; injection Hr as -> <-.
  - (* the line starts with a newline: only the read reached the engine *)
    assert (Hreq : history_requests
                     (calls_since s (set_world (Eng.el_gets (editLine s) 0%Z (world s)).2 s)) = []).
    { rewrite (calls_since_app _ _ [Call_el_gets (editLine s)]) by exact Hgc.
      reflexivity. }
    split; [|split].
    + split; [|done]. intros [Hone _]. rewrite Hreq in Hone. discriminate.
    + done.
    + intros _. simpl. split; [exact Hgh|]. split; [|exact Hreq].
      unfold held_history. simpl. rewrite Hh. simpl. rewrite Hgh. exact HH.
  - (* any other line: the read, then one append *)
    rewrite Hh.
    assert (Hst : histories (Eng.history (Some h) (historyEvent s)
                    (H_ENTER (Some line))
                    (Eng.el_gets (editLine s) 0%Z (world s)).2).2 =
                  <[h := Eng.enter line H]> (histories (world s))).
    { rewrite (eng_history_enter h H) by (rewrite Hgh; exact HH).
      rewrite Hgh. reflexivity. }
    split; [|split].
    + split; [done|]. intros _. split.
      * rewrite (calls_since_app _ _
                   [Call_el_gets (editLine s);
                    Call_history (Some h) (H_ENTER (Some line))]).
        { reflexivity. }
        cbn [world]. rewrite eng_history_calls, Hgc, <- app_assoc. reflexivity.
      * exists H. split; [exact HH | exact Hst].
    + intros _. cbn [world]. rewrite Hst, lookup_insert_eq. reflexivity.
    + done.
Qed.

(** C2: a read returns the null pointer exactly when the single-line read
    reports a byte count of zero or less, and the History is then as it
    was; on a positive count it returns the committed line. *)
Theorem readLine_null_iff_no_line (s : Facade Engine) :
  let line := (el_gets (editLine s) 0%Z (world s)).1.1 in
  let count := (el_gets (editLine s) 0%Z (world s)).1.2 in
  exists r s',
    lineEditorReadLine s = Ok r s' /\
    (r = None <-> (count <= 0)%Z) /\
    ((count <= 0)%Z ->
       historyInstance s' = historyInstance s /\
       histories (world s') = histories (world s) /\
       calls_since s s' = [Call_el_gets (editLine s)]) /\
    ((0 < count)%Z ->
       r = line /\
       exists text, r = Some text /\ count = Z.of_nat (String.length text)).
Proof.
  change (@el_gets Engine Engine_libedit) with Eng.el_gets. cbv zeta.
  pose proof (eng_gets_histories (editLine s) 0%Z (world s)) as Hgh.
  pose proof (eng_gets_calls (editLine s) 0%Z (world s)) as Hgc.
  destruct (readLine_cases s)
    as [[Hle Heq]|[(text & Hg & Hgt & _ & Heq)|(text & Hg & Hgt & _ & Heq)]];
    rewrite Heq; do 2 eexists; (split; [reflexivity|]).
  - split; [done|]. split; [|lia]. intros _. cbn [historyInstance set_world world].
    split; [done|]. split; [exact Hgh|]. by apply calls_since_app.
  - rewrite Hg in *. cbn [fst snd] in *. split; [split; [discriminate|lia]|].
    split; [lia|]. intros _. eauto.
  - rewrite Hg in *. cbn [fst snd] in *. split; [split; [discriminate|lia]|].
    split; [lia|]. intros _. eauto.
Qed.

(** C3: in every reachable state the held History is bounded by 800 with
    FIFO eviction: a read whose line does not start with a newline leaves
    min (previous length + 1, 800) entries, the line last, and drops the
    oldest entry when there were 800. *)
Theorem readLine_history_capacity
    (s s' : Facade Engine) (line : string) (h : positive) (H : History) :
  reachable s ->
  lineEditorReadLine s = Ok (Some line) s' ->
  first_byte line <> newline ->
  historyInstance s = Some h ->
  histories (world s) !! h = Some H ->
  exists H',
    histories (world s') !! h = Some H' /\
    length (entries H') = Nat.min (length (entries H) + 1) 800 /\
    (length (entries H) < 800 -> entries H' = (entries H ++ [line])%list) /\
    (length (entries H) = 800 ->
       entries H' = (drop 1 (entries H) ++ [line])%list).
Proof.
  intros Hreach Hr Hnl Hh HH.
  destruct (proj1 (reachable_wf s Hreach) h Hh) as (H0 & HH0 & Hcap & Hlen).
  rewrite HH in HH0. injection HH0 as <-.
  destruct (readLine_enters s s' line h H Hr Hh HH Hnl)
    as [H' [HH' Hent]].
  exists H'. split; [exact HH'|]. rewrite Hent, Hcap.
  split; [|split].
  - rewrite keep_last_length, length_app. cbn [length]. lia.
  - intros Hlt. apply keep_last_fits. rewrite length_app. cbn [length]. lia.
  - intros Hfull. apply keep_last_full; [lia | exact Hfull].
Qed.

(** ** Teardown *)

Lemma eng_end_histories e w : histories (Eng.el_end e w) = histories w.
Proof. destruct e; reflexivity. Qed.

Lemma eng_end_released p w : editors (Eng.el_end (Some p) w) !! p = None.
Proof. unfold Eng.el_end. simpl. apply lookup_delete_eq. Qed.

Lemma eng_history_end_released p w :
  histories (Eng.history_end (Some p) w) !! p = None.
Proof. unfold Eng.history_end. simpl. apply lookup_delete_eq. Qed.

(** C4: destroy is idempotent.  Over any engine, destroy with nothing live
    changes nothing and calls nothing, destroy always ends Absent, and a
    second destroy changes nothing more; on the reference engine the
    Editor and the History that were held are no longer allocated. *)
Theorem destroy_idempotent :
  (forall (W : Type) (E : Libedit W) (s : Facade W),
      (Absent s -> lineEditorDestroy s = Ok tt s) /\
      exists s1,
        lineEditorDestroy s = Ok tt s1 /\
        Absent s1 /\
        lineEditorDestroy s1 = Ok tt s1 /\
        (lineEditorDestroy;; lineEditorDestroy) s = lineEditorDestroy s) /\
  (forall (s s1 : Facade Engine),
      lineEditorDestroy s = Ok tt s1 ->
      (forall e, editLine s = Some e -> editors (world s1) !! e = None) /\
      (forall h, historyInstance s = Some h ->
                 histories (world s1) !! h = None)).
Proof.
  split.
  - intros W E s. split; [apply destroy_absent|].
    pose proof (destroy_eq s) as Hd. cbv zeta in Hd.
    eexists. split; [exact Hd|].
    assert (Habs : Absent
              {| editLine := NULL; historyInstance := NULL;
                 historyEvent := historyEvent s;
                 world := match editLine s with
                          | Some _ =>
                              el_end (editLine s)
                                (el_reset (editLine s)
                                   match historyInstance s with
                                   | Some _ => history_end (historyInstance s) (world s)
                                   | None => world s
                                   end)
                          | None =>
                              match historyInstance s with
                              | Some _ => history_end (historyInstance s) (world s)
                              | None => world s
                              end
                          end |}) by (split; reflexivity).
    split; [exact Habs|]. split; [apply destroy_absent; exact Habs|].
    unfold mbind at 1. unfold M_bind. rewrite Hd.
    rewrite (destroy_absent _ Habs). reflexivity.
  - intros s s1. rewrite destroy_eq. cbv zeta. intros [= <-].
    change (@el_end Engine Engine_libedit) with Eng.el_end.
    change (@el_reset Engine Engine_libedit) with Eng.el_reset.
    change (@history_end Engine Engine_libedit) with Eng.history_end.
    cbn [world]. split.
    + intros e ->. apply eng_end_released.
    + intros h ->. destruct (editLine s) as [e|].
      * rewrite eng_end_histories, eng_reset_histories.
        apply eng_history_end_released.
      * apply eng_history_end_released.
Qed.

(** ** Reset *)

(** C7: reset reinitializes the held Editor and nothing else: the History
    holder, every History with its contents, and every other Editor are
    after the call what they were before, and the engine received one
    call, [el_reset] on the held handle. *)
Theorem reset_keeps_history (s : Facade Engine) :
  exists s',
    lineEditorReset s = Ok tt s' /\
    historyInstance s' = historyInstance s /\
    histories (world s') = histories (world s) /\
    held_history s' = held_history s /\
    calls_since s s' = [Call_el_reset (editLine s)] /\
    (forall q, editLine s <> Some q ->
               editors (world s') !! q = editors (world s) !! q).
Proof.
  rewrite reset_eq. eexists. split; [reflexivity|].
  change (@el_reset Engine Engine_libedit) with Eng.el_reset.
  unfold held_history. cbn [historyInstance world set_world].
  rewrite eng_reset_histories. repeat split.
  - apply calls_since_app. cbn [world]. apply eng_reset_calls.
  - intros q Hq. by apply eng_reset_others.
Qed.

(** ** Outside a session *)

(** C9: reset and readLine do not look at the holder before they call the
    engine: with nothing live the engine receives [el_reset] and [el_gets]
    on the null handle, where destroy calls nothing at all. *)
Theorem reset_and_readLine_unguarded (s : Facade Engine) :
  Absent s ->
  (exists s1, lineEditorReset s = Ok tt s1 /\
              calls_since s s1 = [Call_el_reset NULL]) /\
  (exists r s2 rest, lineEditorReadLine s = Ok r s2 /\
                     calls_since s s2 = Call_el_gets NULL :: rest) /\
  (exists s3, lineEditorDestroy s = Ok tt s3 /\ calls_since s s3 = []).
Proof.
  intros Habs. pose proof Habs as [He Hh]. split; [|split].
  - rewrite reset_eq. eexists. split; [reflexivity|].
    apply calls_since_app. cbn [world set_world]. rewrite <- He.
    apply eng_reset_calls.
  - pose proof (eng_gets_calls (editLine s) 0%Z (world s)) as Hgc.
    destruct (readLine_cases s)
      as [[_ Heq]|[(text & _ & _ & _ & Heq)|(text & _ & _ & _ & Heq)]];
      rewrite Heq, <- He; do 2 eexists.
    + exists []. split; [reflexivity|]. by apply calls_since_app.
    + exists []. split; [reflexivity|]. by apply calls_since_app.
    + eexists. split; [reflexivity|]. apply calls_since_app. cbn [world].
      rewrite eng_history_calls, Hgc, <- app_assoc. reflexivity.
  - exists s. split; [by apply destroy_absent|].
    apply calls_since_app. by rewrite app_nil_r.
Qed.

(** ** The result of the append *)

(** C10: what a read returns does not depend on the history append: over
    any engine, replacing the [history] entry point by any other (one that
    fails, say) leaves the returned value the same, and a committed line
    is returned as the engine's read delivered it. *)
Theorem readLine_ignores_append_result
    (W : Type) (E : Libedit W)
    (f : ptr -> HistEvent -> HistFun -> W -> (Z * HistEvent) * W)
    (s : Facade W) :
  value (@lineEditorReadLine W E s) =
  value (@lineEditorReadLine W (with_history E f) s) /\
  (forall text n w1,
      @el_gets W E (editLine s) 0%Z (world s) = ((Some text, n), w1) ->
      (0 < n)%Z ->
      value (@lineEditorReadLine W E s) = Some (Some text)).
Proof.
  rewrite !readLine_eq. cbn [el_gets history with_history].
  destruct (@el_gets W E (editLine s) 0%Z (world s)) as [[line count] w1].
  split.
  - destruct (count <=? 0)%Z; [reflexivity|].
    destruct line as [l|]; [|reflexivity].
    destruct (Ascii.eqb (first_byte l) newline); [reflexivity|].
    destruct (@history W E _ _ _ _) as [[rc ev] w2].
    destruct (f _ _ _ _) as [[rc' ev'] w2']. reflexivity.
  - intros text n w [= -> -> ->] Hn.
    destruct (Z.leb_spec n 0); [lia|].
    destruct (Ascii.eqb (first_byte text) newline); [reflexivity|].
    destruct (@history W E _ _ _ _) as [[rc ev] w2]. reflexivity.
Qed.

(** ** The prompt *)

(** A read on a held, hooked Editor displays the prompt. *)
Lemma readLine_emits_prompt (s : Facade Engine) (e : positive) :
  wf s -> editLine s = Some e ->
  exists r s', lineEditorReadLine s = Ok r s' /\
               screen (world s') = (screen (world s) ++ ["> "])%list.
Proof.
  intros Hwf He.
  destruct (proj2 Hwf e He) as (E & HE & Hp).
  pose proof (eng_gets_screen e E prompt 0%Z (world s) HE Hp) as Hscr.
  rewrite <- He in Hscr.
  destruct (readLine_cases s)
    as [[_ Heq]|[(text & _ & _ & _ & Heq)|(text & _ & _ & _ & Heq)]];
    rewrite Heq; do 2 eexists; (split; [reflexivity|]); cbn [world set_world].
  - exact Hscr.
  - exact Hscr.
  - rewrite (proj2 (eng_history_editors _ _ _ _)). exact Hscr.
Qed.

(** A create whose Editor is granted ends with that Editor held. *)
Lemma created_holds_editor (s : Facade Engine) :
  editor_granted s -> is_Some (editLine (created s)).
Proof.
  unfold editor_granted, created.
  destruct (Eng.pop (allocs (world s))) as [ea a1].
  destruct (Eng.pop a1) as [ha a2]. cbn [fst editLine]. intros ->. eauto.
Qed.

(** Reads and resets keep a held Editor held, with its hook. *)
Lemma run_reads_keep_editor (ops : list Op) (s : Facade Engine) :
  Forall (fun o => o = ReadLine \/ o = Reset) ops ->
  wf s -> is_Some (editLine s) ->
  wf (run ops s) /\ is_Some (editLine (run ops s)).
Proof.
  intros Hops. revert s.
  induction Hops as [|o ops Ho _ IH]; intros s Hwf Hheld; [done|].
  destruct Ho as [-> | ->]; cbn [run exec].
  - unfold mbind, M_bind, mret, M_ret.
    destruct (lineEditorReadLine s) as [r s1|] eqn:Hr;
      [|destruct (readLine_total s) as (r & s1 & Hr'); congruence].
    apply IH; [eapply readLine_wf; eassumption|].
    destruct (readLine_cases s)
      as [[_ Heq]|[(text & _ & _ & _ & Heq)|(text & _ & _ & _ & Heq)]];
      rewrite Heq in Hr; injection Hr as <- <-; exact Hheld.
  - rewrite reset_eq. apply IH; [|exact Hheld].
    eapply reset_wf; [exact Hwf | apply reset_eq].
Qed.

(** C8: the prompt callback returns the two bytes "> " whatever Editor it
    is asked for.  A create whose allocations are granted ends holding an
    Editor with that callback installed, and every read of the session
    that follows (reads and resets in any number and order after the
    create) displays exactly that string; so does a read in any reachable
    state with a held Editor. *)
Theorem prompt_is_fixed :
  (forall e, prompt e = String ">" (String " " EmptyString) /\
             String.length (prompt e) = 2) /\
  (forall (s : Facade Engine),
      editor_granted s -> history_granted s ->
      exists s' e E,
        lineEditorCreate s = Ok tt s' /\ editLine s' = Some e /\
        editors (world s') !! e = Some E /\ prompt_hook E = Some prompt) /\
  (forall (s : Facade Engine) (ops : list Op),
      editor_granted s -> history_granted s ->
      Forall (fun o => o = ReadLine \/ o = Reset) ops ->
      let s1 := run (Create :: ops) s in
      exists r s', lineEditorReadLine s1 = Ok r s' /\
                   screen (world s') = (screen (world s1) ++ ["> "])%list) /\
  (forall (s s' : Facade Engine) e,
      lineEditorCreate s = Ok tt s' -> editLine s' = Some e ->
      exists E, editors (world s') !! e = Some E /\
                prompt_hook E = Some prompt) /\
  (forall (s : Facade Engine) e,
      reachable s -> editLine s = Some e ->
      exists r s', lineEditorReadLine s = Ok r s' /\
                   screen (world s') = (screen (world s) ++ ["> "])%list).
Proof.
  split; [|split; [|split; [|split]]].
  - intros e. split; reflexivity.
  - intros s Hge _. exists (created s).
    destruct (created_holds_editor s Hge) as [e He].
    destruct (proj2 (created_wf s) e He) as (E & HE & Hp).
    exists e, E. split; [apply create_eq|]. done.
  - intros s ops Hge _ Hops s1. subst s1. cbn [run exec]. rewrite create_eq.
    destruct (run_reads_keep_editor ops (created s) Hops (created_wf s)
                (created_holds_editor s Hge)) as [Hwf [e He]].
    exact (readLine_emits_prompt _ e Hwf He).
  - intros s s' e. rewrite create_eq. intros [= <-] He.
    exact (proj2 (created_wf s) e He).
  - intros s e Hreach He.
    exact (readLine_emits_prompt s e (reachable_wf s Hreach) He).
Qed.

(** ** Create *)

Lemma fresh_editor_free (m : gmap positive EditLine) : m !! fresh (dom m) = None.
Proof. apply not_elem_of_dom, is_fresh. Qed.

Lemma fresh_history_free (m : gmap positive History) : m !! fresh (dom m) = None.
Proof. apply not_elem_of_dom, is_fresh. Qed.

(** Create releases nothing: whatever was allocated before still is, and
    unchanged. *)
Lemma created_keeps (s : Facade Engine) :
  (forall q E, editors (world s) !! q = Some E ->
               editors (world (created s)) !! q = Some E) /\
  (forall q H, histories (world s) !! q = Some H ->
               histories (world (created s)) !! q = Some H).
Proof.
  unfold created.
  destruct (Eng.pop (allocs (world s))) as [ea a1].
  destruct (Eng.pop a1) as [ha a2]. cbn [world editors histories]. split.
  - intros q E Hq. destruct ea; [|exact Hq].
    rewrite lookup_insert_ne; [exact Hq|].
    intros <-. rewrite fresh_editor_free in Hq. discriminate.
  - intros q H Hq. destruct ha; [|exact Hq].
    rewrite lookup_insert_ne; [exact Hq|].
    intros <-. rewrite fresh_history_free in Hq. discriminate.
Qed.

(** C5, as the code has it: create checks no allocation result and
    reports nothing.  When the Editor cannot be allocated and the History
    can, create returns normally with [editLine] null and
    [historyInstance] holding the new History (capacity 800, no entry);
    it calls neither [history_end] nor [el_end], releases nothing, and
    the state is not Absent. *)
Theorem create_keeps_partial_state
    (s : Facade Engine) (rest : list bool) :
  allocs (world s) = false :: true :: rest ->
  exists s',
    lineEditorCreate s = Ok tt s' /\
    editLine s' = NULL /\
    historyInstance s' = Some (fresh (dom (histories (world s)))) /\
    histories (world s') !! fresh (dom (histories (world s))) =
      Some {| capacity := 800; entries := [] |} /\
    editors (world s') = editors (world s) /\
    (forall q H, histories (world s) !! q = Some H ->
                 histories (world s') !! q = Some H) /\
    calls_since s s' =
      [Call_el_init "command" stdin stdout stderr;
       Call_el_set NULL (EL_PROMPT prompt);
       Call_el_set NULL (EL_EDITOR "emacs");
       Call_history_init;
       Call_history (Some (fresh (dom (histories (world s))))) (H_SETSIZE 800);
       Call_el_set NULL (EL_HIST (Some (fresh (dom (histories (world s))))))] /\
    ~ Absent s'.
Proof.
  intros Ha. exists (created s). split; [apply create_eq|].
  pose proof (created_keeps s) as [_ Hkh]. revert Hkh.
  unfold created. rewrite Ha.
  cbn [Eng.pop editLine historyInstance world editors histories].
  intros Hkh. split; [reflexivity|]. split; [reflexivity|].
  split; [apply lookup_insert_eq|]. split; [reflexivity|].
  split; [exact Hkh|]. split.
  - apply calls_since_app. reflexivity.
  - intros [_ Hh]. discriminate Hh.
Qed.

(** C5, as stated, fails: with the Editor denied and the History
    granted, create ends with the History held and allocated. *)
Lemma create_failure_not_absent :
  ~ create_failure_leaves_absent (boot [false; true] []).
Proof.
  intros Hc.
  destruct (Hc false true [] (created (boot [false; true] [])))
    as [[_ Hh] _]; [reflexivity | by left | apply create_eq |].
  vm_compute in Hh. discriminate.
Qed.



(** ** Concrete sessions *)

Lemma session_reachable ops a t : reachable (run ops (boot a t)).
Proof. apply run_reachable, reach_boot. Qed.

(** Scenario 1 of the specification: basic echo. *)
Example scenario_basic_echo :
  lineEditorReadLine session_created =
    Ok (Some ls_line) session_read /\
  held_history session_read = Some {| capacity := 800; entries := [ls_line] |}.
Proof. split; vm_compute; reflexivity. Qed.

(** Scenario 2: a bare Enter is returned and not stored. *)
Example scenario_empty_line :
  let s := run [Create] (boot [] [Committed bare_enter]) in
  value (lineEditorReadLine s) = Some (Some bare_enter) /\
  held_history (run [ReadLine] s) = Some {| capacity := 800; entries := [] |}.
Proof. split; vm_compute; reflexivity. Qed.

(** Scenario 3: end of input. *)
Example scenario_eof :
  let s := run [Create] (boot [] []) in
  value (lineEditorReadLine s) = Some None /\
  held_history (run [ReadLine] s) = Some {| capacity := 800; entries := [] |}.
Proof. split; vm_compute; reflexivity. Qed.

(** Scenario 4: the 801st line evicts the first. *)
Example scenario_eviction :
  let s := run (Create :: replicate 801 ReadLine)
               (boot [] (map Committed (map numbered (seq 1 801)))) in
  entries <$> held_history s = Some (map numbered (seq 2 800)).
Proof. vm_compute. reflexivity. Qed.

(** Scenario 6: double destroy. *)
Example scenario_double_destroy :
  let s := run [Create; Destroy; Destroy] (boot [] []) in
  Absent s /\ editors (world s) = ∅ /\ histories (world s) = ∅.
Proof. repeat split; vm_compute; reflexivity. Qed.

(** An engine whose appends all fail returns the same line and stores
    nothing. *)
Example failing_append_same_line :
  @lineEditorReadLine Engine (with_history Engine_libedit failing_history)
                      session_created =
  Ok (Some ls_line)
     (set_world (Eng.el_gets (Some 1%positive) 0%Z (world session_created)).2
                session_created).
Proof. vm_compute. reflexivity. Qed.

(** ** The theorems at concrete sessions *)

(** C1 on the session that reads [ls]: the line was appended once. *)
Lemma readLine_history_iff_not_newline_witness :
  lineEditorReadLine session_created = Ok (Some ls_line) session_read /\
  appended_once session_created session_read 1 ls_line.
Proof.
  assert (Hr : lineEditorReadLine session_created = Ok (Some ls_line) session_read)
    by (vm_compute; reflexivity).
  split; [exact Hr|].
  refine (proj2 (proj1 (readLine_history_iff_not_newline
                          session_created session_read ls_line 1
                          {| capacity := 800; entries := [] |} Hr _ _)) _).
  - vm_compute; reflexivity.
  - vm_compute; reflexivity.
  - discriminate.
Defined.

(** C3 on the same session: one entry after the first line. *)
Lemma readLine_history_capacity_witness :
  reachable session_created /\
  exists H', histories (world session_read) !! 1%positive = Some H' /\
             length (entries H') = Nat.min (0 + 1) 800.
Proof.
  split; [apply session_reachable|].
  destruct (readLine_history_capacity
              session_created session_read ls_line 1
              {| capacity := 800; entries := [] |})
    as (H' & HH' & Hlen & _).
  - apply session_reachable.
  - vm_compute; reflexivity.
  - discriminate.
  - vm_compute; reflexivity.
  - vm_compute; reflexivity.
  - exists H'. split; [exact HH' | exact Hlen].
Defined.

(** C5 with the Editor denied and the History granted. *)
Lemma create_keeps_partial_state_witness :
  exists s',
    lineEditorCreate (boot [false; true] []) = Ok tt s' /\
    editLine s' = NULL /\
    historyInstance s' = Some (fresh (dom (histories (world (boot [false; true] []))))) /\
    ~ Absent s'.
Proof.
  destruct (create_keeps_partial_state (boot [false; true] []) [])
    as (s' & Hc & He & Hh & _ & _ & _ & _ & Hn).
  - reflexivity.
  - exists s'. split; [exact Hc|]. split; [exact He|].
    split; [exact Hh | exact Hn].
Defined.

(** C8 on the session one create opens. *)
Lemma prompt_is_fixed_witness :
  exists r s',
    lineEditorReadLine session_created = Ok r s' /\
    screen (world s') = (screen (world session_created) ++ ["> "])%list.
Proof.
  apply (proj1 (proj2 (proj2 prompt_is_fixed))
           (boot [] [Committed ls_line]) []).
  - reflexivity.
  - reflexivity.
  - constructor.
Defined.


(** C9 before any create. *)
Lemma reset_and_readLine_unguarded_witness :
  Absent (boot [] []) /\
  exists s1, lineEditorReset (boot [] []) = Ok tt s1 /\
             calls_since (boot [] []) s1 = [Call_el_reset NULL].
Proof.
  assert (Habs : Absent (boot [] [])) by (split; reflexivity).
  split; [exact Habs|].
  exact (proj1 (reset_and_readLine_unguarded (boot [] []) Habs)).
Defined.

(** * Further properties of the facade *)

(** ** Undefined behaviour of a read *)

(** X1: over any engine, a read is undefined exactly when the engine
    reports a positive count together with a null line: [line[0]] is read
    without a null test.  In every other case it returns. *)
Theorem readLine_fault_iff (W : Type) (E : Libedit W) (s : Facade W) :
  lineEditorReadLine s = Fault <->
  (el_gets (editLine s) 0%Z (world s)).1.1 = None /\
  (0 < (el_gets (editLine s) 0%Z (world s)).1.2)%Z.
Proof.
  rewrite readLine_eq.
  destruct (el_gets (editLine s) 0%Z (world s)) as [[line count] w1].
  cbn [fst snd].
  destruct (Z.leb_spec count 0) as [Hle|Hgt].
  - split; [discriminate | intros [_ Hc]; lia].
  - destruct line as [l|].
    + split; [|intros [Hn _]; discriminate].
      destruct (Ascii.eqb (first_byte l) newline); [discriminate|].
      destruct (history _ _ _ _) as [[rc ev] w2]. discriminate.
    + split; [intros _; split; [reflexivity | lia] | reflexivity].
Qed.

(** ** What reads and resets leave alone *)

(** X2: over any engine, neither a read nor a reset changes the holders,
    so neither moves the facade between Absent and Live; a reset leaves
    the event structure alone as well. *)
Theorem read_and_reset_keep_holders (W : Type) (E : Libedit W) (s : Facade W) :
  (forall r s', lineEditorReadLine s = Ok r s' ->
                editLine s' = editLine s /\
                historyInstance s' = historyInstance s /\
                (Absent s' <-> Absent s)) /\
  (exists s', lineEditorReset s = Ok tt s' /\
              editLine s' = editLine s /\
              historyInstance s' = historyInstance s /\
              historyEvent s' = historyEvent s /\
              (Absent s' <-> Absent s)).
Proof.
  split.
  - intros r s'. rewrite readLine_eq.
    destruct (el_gets (editLine s) 0%Z (world s)) as [[line count] w1].
    assert (Hkeep : forall s0 : Facade W,
               editLine s0 = editLine s ->
               historyInstance s0 = historyInstance s ->
               editLine s0 = editLine s /\
               historyInstance s0 = historyInstance s /\
               (Absent s0 <-> Absent s)).
    { intros s0 He Hh. unfold Absent. rewrite He, Hh. done. }
    destruct (count <=? 0)%Z; [intros [= <- <-]; by apply Hkeep|].
    destruct line as [l|]; [|discriminate].
    destruct (Ascii.eqb (first_byte l) newline);
      [intros [= <- <-]; by apply Hkeep|].
    destruct (history _ _ _ _) as [[rc ev] w2].
    intros [= <- <-]. by apply Hkeep.
  - rewrite reset_eq. eexists. split; [reflexivity|].
    unfold Absent. done.
Qed.

(** ** More facts about the reference engine *)

Lemma eng_end_calls e w :
  calls (Eng.el_end e w) = (calls w ++ [Call_el_end e])%list.
Proof. destruct e; reflexivity. Qed.

Lemma eng_end_others e w q :
  e <> Some q -> editors (Eng.el_end e w) !! q = editors w !! q.
Proof.
  intros Hne. destruct e as [p|]; [|reflexivity].
  unfold Eng.el_end. simpl. apply lookup_delete_ne. congruence.
Qed.

Lemma eng_history_end_calls h w :
  calls (Eng.history_end h w) = (calls w ++ [Call_history_end h])%list.
Proof. destruct h; reflexivity. Qed.

Lemma eng_history_end_editors h w :
  editors (Eng.history_end h w) = editors w.
Proof. destruct h; reflexivity. Qed.

Lemma eng_history_end_others h w q :
  h <> Some q -> histories (Eng.history_end h w) !! q = histories w !! q.
Proof.
  intros Hne. destruct h as [p|]; [|reflexivity].
  unfold Eng.history_end. simpl. apply lookup_delete_ne. congruence.
Qed.

(** ** Create, on any state *)

(** X3: whatever the state before, the objects create ends up holding are
    new ones: their handles named nothing allocated before the call, the
    Editor's line buffer is empty, and the History has capacity 800 and no
    entry, so nothing of an earlier session is carried over. *)
Theorem create_starts_afresh (s : Facade Engine) :
  exists s',
    lineEditorCreate s = Ok tt s' /\
    (forall e, editLine s' = Some e ->
       editors (world s) !! e = None /\
       exists E, editors (world s') !! e = Some E /\ line_buffer E = None) /\
    (forall h, historyInstance s' = Some h ->
       histories (world s) !! h = None /\
       histories (world s') !! h = Some {| capacity := 800; entries := [] |}).
Proof.
  exists (created s). split; [apply create_eq|].
  unfold created.
  destruct (Eng.pop (allocs (world s))) as [ea a1].
  destruct (Eng.pop a1) as [ha a2].
  cbn [editLine historyInstance world editors histories]. split.
  - intros e He. destruct ea; [|discriminate]. injection He as <-.
    split; [apply fresh_editor_free|].
    rewrite lookup_insert_eq. eexists. split; reflexivity.
  - intros h Hh. destruct ha; [|discriminate]. injection Hh as <-.
    split; [apply fresh_history_free|]. apply lookup_insert_eq.
Qed.

(** ** Destroy, on any state *)

(** X4: destroy calls the engine for the holders it finds non-null and
    for nothing else: [history_end] first, then [el_reset] and [el_end],
    each once.  Objects the facade does not hold (those an earlier create
    left behind, say) stay as they are, and the event structure is not
    written. *)
Theorem destroy_releases_only_held (s : Facade Engine) :
  exists s',
    lineEditorDestroy s = Ok tt s' /\
    calls_since s s' = teardown_calls (editLine s) (historyInstance s) /\
    historyEvent s' = historyEvent s /\
    (forall q, editLine s <> Some q ->
               editors (world s') !! q = editors (world s) !! q) /\
    (forall q, historyInstance s <> Some q ->
               histories (world s') !! q = histories (world s) !! q).
Proof.
  rewrite destroy_eq. cbv zeta. eexists. split; [reflexivity|].
  change (@el_end Engine Engine_libedit) with Eng.el_end.
  change (@el_reset Engine Engine_libedit) with Eng.el_reset.
  change (@history_end Engine Engine_libedit) with Eng.history_end.
  cbn [world historyEvent]. split; [|split; [reflexivity|split]].
  - apply calls_since_app. cbn [world]. unfold teardown_calls.
    destruct (editLine s) as [e|], (historyInstance s) as [h|];
      rewrite ?eng_end_calls, ?eng_reset_calls, ?eng_history_end_calls,
        <- ?app_assoc, ?app_nil_r; reflexivity.
  - intros q Hq. destruct (editLine s) as [e|].
    + rewrite eng_end_others, eng_reset_others by exact Hq.
      destruct (historyInstance s); [apply (f_equal (.!! q)),
        eng_history_end_editors | reflexivity].
    + destruct (historyInstance s); [apply (f_equal (.!! q)),
        eng_history_end_editors | reflexivity].
  - intros q Hq.
    assert (Hh : histories
                   match historyInstance s with
                   | Some _ => Eng.history_end (historyInstance s) (world s)
                   | None => world s
                   end !! q = histories (world s) !! q).
    { destruct (historyInstance s) as [h|] eqn:Hhs; [|reflexivity].
      by apply eng_history_end_others. }
    destruct (editLine s) as [e|]; [|exact Hh].
    rewrite eng_end_histories, eng_reset_histories. exact Hh.
Qed.

(** ** Create and destroy together *)

Lemma eng_reset_end_store p w :
  editors (Eng.el_end (Some p) (Eng.el_reset (Some p) w)) = delete p (editors w).
Proof.
  unfold Eng.el_end, Eng.el_reset. cbn [Eng.record editors Eng.with_editors].
  destruct (editors w !! p); cbn [editors Eng.with_editors]; [|reflexivity].
  apply delete_insert_eq.
Qed.

Lemma eng_history_end_store p w :
  histories (Eng.history_end (Some p) w) = delete p (histories w).
Proof. reflexivity. Qed.

(** X5: when the History is granted, create followed by destroy is
    balanced, with the Editor granted or denied: create ends holding the
    History, and after the destroy the state is Absent and the engine
    holds exactly the Editors and Histories it held before the create. *)
Theorem create_then_destroy_balances (s : Facade Engine) :
  history_granted s ->
  exists s1 s2,
    lineEditorCreate s = Ok tt s1 /\
    is_Some (historyInstance s1) /\
    lineEditorDestroy s1 = Ok tt s2 /\
    Absent s2 /\
    editors (world s2) = editors (world s) /\
    histories (world s2) = histories (world s).
Proof.
  intros Hg.
  exists (created s). eexists. split; [apply create_eq|].
  assert (He : editLine (created s) = NULL /\
               editors (world (created s)) = editors (world s) \/
               exists E, editLine (created s) = Some (fresh (dom (editors (world s)))) /\
                 editors (world (created s)) =
                 <[fresh (dom (editors (world s))) := E]> (editors (world s))).
  { unfold created. destruct (Eng.pop (allocs (world s))) as [[] a1];
      destruct (Eng.pop a1) as [ha a2]; cbn [editLine world editors]; eauto. }
  assert (Hh : exists H,
             historyInstance (created s) = Some (fresh (dom (histories (world s)))) /\
             histories (world (created s)) =
             <[fresh (dom (histories (world s))) := H]> (histories (world s))).
  { revert Hg. unfold history_granted, created.
    destruct (Eng.pop (allocs (world s))) as [ea a1]. cbn [snd].
    destruct (Eng.pop a1) as [ha a2]. cbn [fst]. intros ->.
    cbn [historyInstance world histories]. eauto. }
  split; [destruct Hh as (H & -> & _); eauto|].
  split; [apply destroy_eq|]. cbv zeta. split; [split; reflexivity|].
  change (@el_end Engine Engine_libedit) with Eng.el_end.
  change (@el_reset Engine Engine_libedit) with Eng.el_reset.
  change (@history_end Engine Engine_libedit) with Eng.history_end.
  cbn [world].
  generalize dependent (created s). intros s1 He Hh.
  destruct He as [[-> He]|(E & -> & He)], Hh as (H & -> & Hh).
  - rewrite eng_history_end_editors, eng_history_end_store, He, Hh.
    split; [reflexivity|]. apply delete_insert_id, fresh_history_free.
  - rewrite eng_reset_end_store, eng_end_histories, eng_reset_histories,
      eng_history_end_editors, eng_history_end_store, He, Hh.
    split; [apply delete_insert_id, fresh_editor_free
           | apply delete_insert_id, fresh_history_free].
Qed.

(** ** More invariants of reachable states *)

Lemma same_config_refl E : same_config E E.
Proof. repeat split. Qed.

Lemma same_config_buffer l E : same_config E (Eng.set_buffer l E).
Proof. repeat split. Qed.

(** A read keeps every Editor allocated and changes at most its buffer. *)
Lemma eng_gets_config e c w q E :
  editors w !! q = Some E ->
  exists E', editors (Eng.el_gets e c w).2 !! q = Some E' /\ same_config E E'.
Proof.
  intros Hq. unfold Eng.el_gets, Eng.next_event.
  destruct e as [p|]; simpl; [|eauto using same_config_refl].
  destruct (editors w !! p) as [E0|] eqn:Hp; simpl;
    [|eauto using same_config_refl].
  assert (Hins : forall m (l : option string),
             m = editors w ->
             exists E', <[p := Eng.set_buffer l E0]> m !! q = Some E' /\
                        same_config E E').
  { intros m l ->. destruct (decide (p = q)) as [->|Hne].
    - rewrite lookup_insert_eq. rewrite Hp in Hq. injection Hq as ->.
      eauto using same_config_buffer.
    - rewrite lookup_insert_ne by done. eauto using same_config_refl. }
  destruct (prompt_hook E0); simpl; destruct (tty w); simpl;
    apply Hins; reflexivity.
Qed.

Lemma eng_reset_config e w q E :
  editors w !! q = Some E ->
  exists E', editors (Eng.el_reset e w) !! q = Some E' /\ same_config E E'.
Proof.
  intros Hq. unfold Eng.el_reset.
  destruct e as [p|]; [|eauto using same_config_refl]. simpl.
  destruct (editors w !! p) as [E0|] eqn:Hp; [|eauto using same_config_refl].
  simpl. destruct (decide (p = q)) as [->|Hne].
  - rewrite lookup_insert_eq. rewrite Hp in Hq. injection Hq as ->.
    eauto using same_config_buffer.
  - rewrite lookup_insert_ne by done. eauto using same_config_refl.
Qed.

(** A history request keeps every History allocated. *)
Lemma eng_history_live h ev fn w q :
  is_Some (histories w !! q) ->
  is_Some (histories (Eng.history h ev fn w).2 !! q).
Proof.
  intros Hq. unfold Eng.history. destruct h as [p|]; [|exact Hq]. simpl.
  destruct (histories w !! p) as [H|] eqn:Hp; [|exact Hq].
  assert (Hins : forall H', is_Some (<[p := H']> (histories w) !! q)).
  { intros H'. destruct (decide (p = q)) as [->|Hne].
    - rewrite lookup_insert_eq. eauto.
    - rewrite lookup_insert_ne by done. exact Hq. }
  destruct fn as [n|[l|]]; [destruct (n <? 0)%Z|..]; simpl;
    first [apply Hins | exact Hq].
Qed.

(** A history request on a handle that is not allocated stores nothing. *)
Lemma eng_history_dead p ev fn w :
  histories w !! p = None ->
  histories (Eng.history (Some p) ev fn w).2 = histories w.
Proof. intros Hp. unfold Eng.history. simpl. rewrite Hp. reflexivity. Qed.

Lemma created_configured s : configured (created s).
Proof.
  unfold configured, created.
  destruct (Eng.pop (allocs (world s))) as [ea a1].
  destruct (Eng.pop a1) as [ha a2].
  cbn [editLine historyInstance world editors histories]. split.
  - intros e He. destruct ea; [|discriminate]. injection He as <-.
    rewrite lookup_insert_eq. eexists. split; [reflexivity|]. done.
  - intros h Hh. destruct ha; [|discriminate]. injection Hh as <-.
    rewrite lookup_insert_eq. eauto.
Qed.

Lemma configured_keep (s s' : Facade Engine) :
  configured s ->
  editLine s' = editLine s ->
  historyInstance s' = historyInstance s ->
  (forall q E, editors (world s) !! q = Some E ->
     exists E', editors (world s') !! q = Some E' /\ same_config E E') ->
  (forall q, is_Some (histories (world s) !! q) ->
             is_Some (histories (world s') !! q)) ->
  configured s'.
Proof.
  intros [Hed Hhi] He Hh Hke Hkh. split.
  - intros e Hes. rewrite He in Hes.
    destruct (Hed e Hes) as (E & HE & Hp & Hi & Ho & Her & Hm & Hl).
    destruct (Hke e E HE) as (E' & HE' & Hp' & Hi' & Ho' & Her' & _ & Hm' & Hl').
    exists E'. split; [exact HE'|]. rewrite Hh. repeat split; congruence.
  - intros h Hhs. rewrite Hh in Hhs. apply Hkh, Hhi, Hhs.
Qed.

Lemma readLine_configured s r s' :
  configured s -> lineEditorReadLine s = Ok r s' -> configured s'.
Proof.
  intros Hc Hr.
  pose proof (eng_gets_histories (editLine s) 0%Z (world s)) as Hgh.
  destruct (readLine_cases s)
    as [[_ Heq]|[(text & _ & _ & _ & Heq)|(text & _ & _ & _ & Heq)]];
    rewrite Heq in Hr; injection Hr as <- <-;
    apply (configured_keep s); try done; cbn [world set_world].
  - intros q E. apply eng_gets_config.
  - intros q. by rewrite Hgh.
  - intros q E. apply eng_gets_config.
  - intros q. by rewrite Hgh.
  - intros q E. rewrite (proj1 (eng_history_editors _ _ _ _)).
    apply eng_gets_config.
  - intros q Hq. apply eng_history_live. by rewrite Hgh.
Qed.

Lemma reset_configured s s' :
  configured s -> lineEditorReset s = Ok tt s' -> configured s'.
Proof.
  intros Hc. rewrite reset_eq. intros [= <-].
  apply (configured_keep s); try done; cbn [world set_world];
    change (@el_reset Engine Engine_libedit) with Eng.el_reset.
  - intros q E. apply eng_reset_config.
  - intros q. by rewrite eng_reset_histories.
Qed.

Lemma reachable_configured s : reachable s -> configured s.
Proof.
  induction 1 as [a t|o s s' _ IH Hstep]; [split; simpl; discriminate|].
  destruct o; simpl in Hstep.
  - rewrite create_eq in Hstep. injection Hstep as <-. apply created_configured.
  - unfold mbind, M_bind, mret, M_ret in Hstep.
    destruct (lineEditorReadLine s) as [r s1|] eqn:Hr; [|discriminate].
    injection Hstep as <-. eapply readLine_configured; eassumption.
  - eapply reset_configured; eassumption.
  - rewrite destroy_eq in Hstep. injection Hstep as <-.
    split; simpl; discriminate.
Qed.

(** X6: in every state a caller can reach, the holders do not dangle,
    and the held Editor is the one create configured: tag "command", the
    three standard streams, emacs mode, and a history link that is the
    History handle the facade holds at that moment. *)
Theorem held_editor_configured (s : Facade Engine) (e : positive) :
  reachable s ->
  editLine s = Some e ->
  (exists E, editors (world s) !! e = Some E /\
             prog E = "command" /\ fin E = stdin /\ fout E = stdout /\
             ferr E = stderr /\ edit_mode E = Some "emacs" /\
             hist_link E = historyInstance s) /\
  (forall h, historyInstance s = Some h ->
             is_Some (histories (world s) !! h)).
Proof.
  intros Hreach He. destruct (reachable_configured s Hreach) as [Hed Hhi].
  split; [by apply Hed | exact Hhi].
Qed.

Lemma readLine_entries_storable s r s' :
  entries_storable s -> lineEditorReadLine s = Ok r s' -> entries_storable s'.
Proof.
  intros Hinv Hr.
  pose proof (eng_gets_histories (editLine s) 0%Z (world s)) as Hgh.
  destruct (readLine_cases s)
    as [[_ Heq]|[(text & _ & _ & _ & Heq)|(text & Hg & Hpos & Hnl & Heq)]];
    rewrite Heq in Hr; injection Hr as <- <-;
    intros h H; cbn [historyInstance world set_world].
  - rewrite Hgh. apply Hinv.
  - rewrite Hgh. apply Hinv.
  - intros Hh. rewrite Hh.
    destruct (histories (world s) !! h) as [H0|] eqn:HH0.
    + rewrite (eng_history_enter h H0) by (rewrite Hgh; exact HH0).
      rewrite lookup_insert_eq. intros [= <-]. cbn [entries Eng.enter].
      apply Forall_drop, Forall_app_2; [by apply (Hinv h H0)|].
      apply Forall_cons_2; [|constructor].
      exact Hnl.
    + rewrite eng_history_dead by (rewrite Hgh; exact HH0).
      rewrite Hgh, HH0. discriminate.
Qed.

Lemma reachable_entries_storable s : reachable s -> entries_storable s.
Proof.
  induction 1 as [a t|o s s' _ IH Hstep]; [intros h H; simpl; discriminate|].
  destruct o; simpl in Hstep.
  - rewrite create_eq in Hstep. injection Hstep as <-.
    intros h H Hh HH.
    destruct (proj1 (created_wf s) h Hh) as (H0 & HH0 & _).
    revert Hh HH. unfold created.
    destruct (Eng.pop (allocs (world s))) as [ea a1].
    destruct (Eng.pop a1) as [[] a2];
      cbn [historyInstance world histories]; [|discriminate].
    intros [= <-]. rewrite lookup_insert_eq. intros [= <-]. constructor.
  - unfold mbind, M_bind, mret, M_ret in Hstep.
    destruct (lineEditorReadLine s) as [r s1|] eqn:Hr; [|discriminate].
    injection Hstep as <-. eapply readLine_entries_storable; eassumption.
  - rewrite reset_eq in Hstep. injection Hstep as <-.
    intros h H. cbn [historyInstance world set_world].
    change (@el_reset Engine Engine_libedit) with Eng.el_reset.
    rewrite eng_reset_histories. apply IH.
  - rewrite destroy_eq in Hstep. injection Hstep as <-.
    intros h H. simpl. discriminate.
Qed.

(** X7: in every state a caller can reach, no entry of the held History
    starts with a newline: the first-byte test of the read is the only
    way into the History. *)
Theorem history_holds_no_blank_line
    (s : Facade Engine) (h : positive) (H : History) :
  reachable s ->
  historyInstance s = Some h ->
  histories (world s) !! h = Some H ->
  Forall (fun l => first_byte l <> newline) (entries H).
Proof.
  intros Hreach Hh HH. exact (reachable_entries_storable s Hreach h H Hh HH).
Qed.

(** ** Sessions in which no allocation fails *)

Lemma eng_gets_allocs e c w : allocs (Eng.el_gets e c w).2 = allocs w.
Proof.
  unfold Eng.el_gets, Eng.next_event.
  destruct e as [p|]; [|reflexivity]. simpl.
  destruct (editors w !! p) as [E|]; [|reflexivity].
  destruct (prompt_hook E); simpl; destruct (tty w); reflexivity.
Qed.

Lemma eng_history_allocs h ev fn w :
  allocs (Eng.history h ev fn w).2 = allocs w.
Proof.
  unfold Eng.history. destruct h as [p|]; [|reflexivity]. simpl.
  destruct (histories w !! p); [|reflexivity].
  destruct fn as [n|[l|]]; [destruct (n <? 0)%Z|..]; reflexivity.
Qed.

Lemma eng_reset_allocs e w : allocs (Eng.el_reset e w) = allocs w.
Proof.
  unfold Eng.el_reset. destruct e as [p|]; [|reflexivity]. simpl.
  destruct (editors w !! p); reflexivity.
Qed.

Lemma eng_end_allocs e w : allocs (Eng.el_end e w) = allocs w.
Proof. destruct e; reflexivity. Qed.

Lemma eng_history_end_allocs h w : allocs (Eng.history_end h w) = allocs w.
Proof. destruct h; reflexivity. Qed.

Lemma pop_granted a :
  Forall (fun ok => ok = true) a ->
  (Eng.pop a).1 = true /\ Forall (fun ok => ok = true) (Eng.pop a).2.
Proof.
  intros Ha. destruct Ha as [|ok rest Hok Hrest]; simpl; [done|].
  split; [exact Hok | exact Hrest].
Qed.

Lemma exec_paired o s s' : paired s -> exec o s = Ok tt s' -> paired s'.
Proof.
  intros [Ha Hp] Hstep. destruct o; simpl in Hstep.
  - rewrite create_eq in Hstep. injection Hstep as <-. unfold created.
    destruct (pop_granted _ Ha) as [H1 Ha1].
    destruct (Eng.pop (allocs (world s))) as [ea a1]. simpl in H1, Ha1.
    destruct (pop_granted _ Ha1) as [H2 Ha2].
    destruct (Eng.pop a1) as [ha a2]. simpl in H2, Ha2. subst ea ha.
    split; [exact Ha2|]. cbn [editLine historyInstance]. done.
  - unfold mbind, M_bind, mret, M_ret in Hstep.
    destruct (lineEditorReadLine s) as [r s1|] eqn:Hr; [|discriminate].
    injection Hstep as <-.
    destruct (readLine_cases s)
      as [[_ Heq]|[(text & _ & _ & _ & Heq)|(text & _ & _ & _ & Heq)]];
      rewrite Heq in Hr; injection Hr as <- <-;
      (split; [cbn [world set_world];
               rewrite ?eng_history_allocs, eng_gets_allocs; exact Ha
              | exact Hp]).
  - rewrite reset_eq in Hstep. injection Hstep as <-.
    split; [|exact Hp]. cbn [world set_world].
    change (@el_reset Engine Engine_libedit) with Eng.el_reset.
    rewrite eng_reset_allocs. exact Ha.
  - rewrite destroy_eq in Hstep. cbv zeta in Hstep. injection Hstep as <-.
    split; [|done]. cbn [world].
    change (@el_end Engine Engine_libedit) with Eng.el_end.
    change (@el_reset Engine Engine_libedit) with Eng.el_reset.
    change (@history_end Engine Engine_libedit) with Eng.history_end.
    destruct (editLine s), (historyInstance s);
      rewrite ?eng_end_allocs, ?eng_reset_allocs, ?eng_history_end_allocs;
      exact Ha.
Qed.

Lemma run_paired ops s : paired s -> paired (run ops s).
Proof.
  revert s. induction ops as [|o ops IH]; intros s Hs; simpl; [exact Hs|].
  destruct (exec o s) as [[] s'|] eqn:Ho; [|exact Hs].
  apply IH. eapply exec_paired; eassumption.
Qed.

(** X8: as long as no allocation is denied, the two holders are null
    together or non-null together after any sequence of operations: the
    facade is then either Absent or holds both an Editor and a History. *)
Theorem holders_paired
    (ops : list Op) (a : list bool) (t : list TtyEvent) :
  Forall (fun ok => ok = true) a ->
  let s := run ops (boot a t) in
  (editLine s = NULL <-> historyInstance s = NULL) /\
  (Absent s \/ (is_Some (editLine s) /\ is_Some (historyInstance s))).
Proof.
  intros Ha s.
  assert (Hp : paired s) by (apply run_paired; split; [exact Ha | done]).
  destruct Hp as [_ Hp]. split; [exact Hp|]. unfold Absent.
  destruct (editLine s) as [e|], (historyInstance s) as [h|]; eauto.
  - destruct Hp as [_ Hp]. discriminate (Hp eq_refl).
  - destruct Hp as [Hp _]. discriminate (Hp eq_refl).
Qed.

(** ** Creates in a row *)

Lemma exec_total o (s : Facade Engine) : exists s', exec o s = Ok tt s'.
Proof.
  destruct o; simpl.
  - rewrite create_eq. eauto.
  - unfold mbind, M_bind, mret, M_ret.
    destruct (readLine_total s) as (r & s' & ->). eauto.
  - rewrite reset_eq. eauto.
  - rewrite destroy_eq. eauto.
Qed.

Lemma run_app ops1 ops2 (s : Facade Engine) :
  run (ops1 ++ ops2) s = run ops2 (run ops1 s).
Proof.
  revert s. induction ops1 as [|o ops1 IH]; intros s; simpl; [reflexivity|].
  destruct (exec_total o s) as [s' ->]. apply IH.
Qed.

Lemma created_piled n s : piled n s -> piled (S n) (created s).
Proof.
  intros (Ha & He & Hh & _). unfold piled, created. rewrite Ha.
  cbn [Eng.pop editLine historyInstance world allocs editors histories].
  split; [reflexivity|].
  rewrite !map_size_insert_None
    by (apply fresh_editor_free || apply fresh_history_free).
  split; [congruence|]. split; [congruence|]. intros _.
  do 2 eexists. split; [reflexivity|]. split; [reflexivity|].
  rewrite !lookup_insert_eq. eauto.
Qed.

Lemma run_creates_piled n m s :
  piled m s -> piled (n + m) (run (replicate n Create) s).
Proof.
  revert m s. induction n as [|n IH]; intros m s Hs; simpl; [exact Hs|].
  rewrite create_eq. replace (S (n + m)) with (n + S m) by lia.
  apply IH, created_piled, Hs.
Qed.

Lemma run_destroys_absent k (s : Facade Engine) :
  Absent s -> run (replicate k Destroy) s = s.
Proof.
  intros Habs. induction k as [|k IH]; simpl; [reflexivity|].
  rewrite (destroy_absent s Habs). exact IH.
Qed.

(** X9: creates pile up.  With every allocation granted, [n] creates in
    a row leave [n] Editors and [n] Histories allocated, and the destroys
    that follow, however many, release one of each and no more: [n - 1]
    of each stay allocated with the facade Absent. *)
Theorem creates_pile_up (n k : nat) (t : list TtyEvent) :
  1 <= n -> 1 <= k ->
  let s0 := run (replicate n Create) (boot [] t) in
  let s := run (replicate n Create ++ replicate k Destroy) (boot [] t) in
  size (editors (world s0)) = n /\
  size (histories (world s0)) = n /\
  Absent s /\
  size (editors (world s)) = n - 1 /\
  size (histories (world s)) = n - 1.
Proof.
  intros Hn Hk s0 s.
  assert (Hboot : piled 0 (boot [] t)).
  { split; [reflexivity|]. split; [apply map_size_empty|].
    split; [apply map_size_empty | lia]. }
  pose proof (run_creates_piled n 0 (boot [] t) Hboot) as Hp.
  rewrite Nat.add_0_r in Hp. fold s0 in Hp.
  destruct Hp as (_ & He & Hh & Hheld).
  split; [exact He|]. split; [exact Hh|].
  destruct (Hheld ltac:(lia)) as (e & h & Hes & Hhs & HE & HH).
  subst s. rewrite run_app. fold s0.
  destruct k as [|k]; [lia|]. simpl.
  rewrite destroy_eq. cbv zeta. rewrite Hes, Hhs.
  change (@el_end Engine Engine_libedit) with Eng.el_end.
  change (@el_reset Engine Engine_libedit) with Eng.el_reset.
  change (@history_end Engine Engine_libedit) with Eng.history_end.
  rewrite run_destroys_absent by (split; reflexivity).
  split; [split; reflexivity|]. cbn [world].
  rewrite eng_reset_end_store, eng_end_histories, eng_reset_histories,
    eng_history_end_editors, eng_history_end_store.
  rewrite !map_size_delete_Some by assumption. lia.
Qed.

(** ** The further properties at concrete sessions *)

(** X6 on the session that has read [ls]. *)
Lemma held_editor_configured_witness :
  reachable session_read /\
  exists E, editors (world session_read) !! 1%positive = Some E /\
            edit_mode E = Some "emacs" /\
            hist_link E = historyInstance session_read.
Proof.
  split; [apply session_reachable|].
  destruct (held_editor_configured session_read 1)
    as [(E & HE & _ & _ & _ & _ & Hm & Hl) _].
  - apply session_reachable.
  - vm_compute; reflexivity.
  - exists E. split; [exact HE|]. split; [exact Hm | exact Hl].
Defined.

(** X7 on the same session. *)
Lemma history_holds_no_blank_line_witness :
  Forall (fun l => first_byte l <> newline) [ls_line].
Proof.
  apply (history_holds_no_blank_line session_read 1
           {| capacity := 800; entries := [ls_line] |}).
  - apply session_reachable.
  - vm_compute; reflexivity.
  - vm_compute; reflexivity.
Defined.

(** X8 on a session with two granted allocations. *)
Lemma holders_paired_witness :
  let s := run [Create; ReadLine; Destroy; Create]
               (boot [true; true] [Committed ls_line]) in
  (editLine s = NULL <-> historyInstance s = NULL) /\
  (Absent s \/ (is_Some (editLine s) /\ is_Some (historyInstance s))).
Proof.
  apply (holders_paired [Create; ReadLine; Destroy; Create] [true; true]
           [Committed ls_line]).
  repeat constructor.
Defined.

(** X9 with three creates and two destroys. *)
Lemma creates_pile_up_witness :
  let s0 := run (replicate 3 Create) (boot [] []) in
  let s := run (replicate 3 Create ++ replicate 2 Destroy) (boot [] []) in
  size (editors (world s0)) = 3 /\
  size (histories (world s0)) = 3 /\
  Absent s /\
  size (editors (world s)) = 3 - 1 /\
  size (histories (world s)) = 3 - 1.
Proof. apply (creates_pile_up 3 2 []); lia. Defined.

(** X5 with the Editor denied and the History granted. *)
Lemma create_then_destroy_balances_witness :
  exists s1 s2,
    lineEditorCreate (boot [false; true] []) = Ok tt s1 /\
    is_Some (historyInstance s1) /\
    lineEditorDestroy s1 = Ok tt s2 /\
    Absent s2 /\
    editors (world s2) = editors (world (boot [false; true] [])) /\
    histories (world s2) = histories (world (boot [false; true] [])).
Proof.
  apply (create_then_destroy_balances (boot [false; true] [])).
  reflexivity.
Defined.
